(** * neon_client/client.py: a shallow embedding and its properties

    The client is a thin binding over an HTTP API.  Python values are
    embedded as an inductive type, dictionaries that are shared between the
    caller and the client live in a store addressed by references, and every
    operation is a computation in a state-and-exception monad whose state
    holds that store together with the log of the calls handed to
    [requests.Session.request].  What the program imports but does not define
    ([requests], [pydantic], the generated [schema] module) is gathered in
    the class [External]. *)

From Stdlib Require Import ZArith.
From stdpp Require Import gmap strings list fin_maps pretty.

Local Open Scope Z_scope.

Set Warnings "-register-all".

(** ** Python values *)

(** The attributes of a [NeonAPI] instance (the session object aside). *)
Record NeonAPI : Type := mkNeonAPI {
  _api_key : string;
  base_url : string;
  user_agent : string
}.

(** The values the client handles: what [json] decoding produces ([None],
    [bool], [int], [str], [list], [dict] with insertion order), instances of
    pydantic models (class name and instance [__dict__]), bound methods,
    classes and the client object.  Floating-point numbers are left out. *)
Inductive pyval : Type :=
| PNone
| PBool (b : bool)
| PInt (n : Z)
| PStr (s : string)
| PList (xs : list pyval)
| PDict (kvs : list (string * pyval))
| PModel (cls : string) (fields : list (string * pyval))
| PMethod (qualname : string)
| PClass (name : string)
| PClient (c : NeonAPI).

(** The entries of an insertion-ordered dictionary with string keys. *)
Abbreviation items := (list (string * pyval)).

(** Python's truth value testing.  A pydantic model defines neither
    [__bool__] nor [__len__], so its instances are always true. *)
Definition truthy (v : pyval) : bool :=
  match v with
  | PNone => false
  | PBool b => b
  | PInt n => negb (Z.eqb n 0)
  | PStr s => negb (String.eqb s "")
  | PList xs => match xs with [] => false | _ => true end
  | PDict kvs => match kvs with [] => false | _ => true end
  | PModel _ _ => true
  | PMethod _ => true
  | PClass _ => true
  | PClient _ => true
  end.

(** [v is not None] *)
Definition is_not_None (v : pyval) : bool :=
  match v with PNone => false | _ => true end.

(** Lookup in an insertion-ordered dictionary. *)
Fixpoint assoc {A : Type} (k : string) (kvs : list (string * A)) : option A :=
  match kvs with
  | [] => None
  | (k', v) :: rest => if String.eqb k k' then Some v else assoc k rest
  end.

(** An instance of a pydantic model. *)
Record Instance : Type := mkInstance {
  inst_cls : string;
  inst_dict : items
}.

Definition as_pyval (o : Instance) : pyval := PModel (inst_cls o) (inst_dict o).

(** ** Exceptions and results *)

Inductive exn : Type :=
| HTTPError (status : Z)            (* requests.exceptions.HTTPError *)
| NeonClientException (msg : string) (* subclass of HTTPError *)
| ConnectionError (msg : string)     (* raised by the session itself *)
| JSONDecodeError
| ValidationError (msg : string)     (* pydantic *)
| KeyError (key : string)
| AttributeError (name : string)
| TypeError (msg : string).

(** [isinstance(e, requests.exceptions.HTTPError)] *)
Definition is_HTTPError (e : exn) : bool :=
  match e with
  | HTTPError _ | NeonClientException _ => true
  | _ => false
  end.

Inductive Result (A : Type) : Type :=
| Ok (a : A)
| Raise (e : exn).
Arguments Ok {A} a.
Arguments Raise {A} e.

(** ** The store and the request log *)

Definition loc := positive.

(** Keyword arguments of [NeonAPI.request]: [headers] is a reference to the
    caller's dictionary, [params] and [json] are passed on untouched.  [None]
    means the keyword was not given. *)
Record Kwargs : Type := mkKwargs {
  kw_headers : option loc;
  kw_params : option items;
  kw_json : option pyval
}.

Definition no_kwargs : Kwargs := mkKwargs None None None.

(** One call of [self._session.request(method, url, headers=..., **kwargs)]:
    the reference passed as [headers], the contents of that dictionary at the
    time of the call, and the remaining keywords. *)
Record Request : Type := mkRequest {
  req_method : string;
  req_url : string;
  req_headers_ref : loc;
  req_headers : gmap string string;
  req_params : option items;
  req_json : option pyval
}.

Record Response : Type := mkResponse {
  status_code : Z;
  text : string
}.

Record State : Type := mkState {
  heap : gmap loc (gmap string string);
  sent : list Request
}.

(** ** What the program imports *)

(** A pydantic model class as far as [model_construct] needs it: its name and
    its declared fields, each with its default ([None] for a required field,
    which has no default). *)
Record DataModel : Type := mkDataModel {
  model_name : string;
  model_fields : list (string * option pyval)
}.

Class External : Type := {
  (** [requests.Session.request]: the outcome of a call, given the calls made
      before it.  It returns a response or raises (no connection, ...). *)
  session_request : list Request -> Request -> Result Response;
  (** The JSON decoder behind [Response.json()]. *)
  json_loads : string -> option pyval;
  (** Attributes an instance of a model class finds on its class (first
      argument): pydantic's [BaseModel] interface. *)
  model_class_attr : string -> string -> option pyval;
  (** Attributes an instance finds on its class besides those the class
      bodies of client.py define: [__class__], [__dict__], [__doc__], ... *)
  object_attr : string -> option pyval;
  (** The response models of [schema] used below. *)
  ApiKeysListResponseItem : DataModel;
  ProjectListItem : DataModel;
  BranchResponse : DataModel;
  (** [schema.BranchCreateRequest( **kwargs)]: validation of the keyword
      arguments into a request object, or [ValidationError]. *)
  BranchCreateRequest : items -> Result Instance;
  (** [BaseModel.model_dump()] *)
  model_dump : Instance -> pyval
}.

(** What the methods outside the list and branch operations import besides:
    the remaining classes of [schema] and Python's [str]. *)
Class MoreExternal : Type := {
  (** [schema.ApiKeyCreateRequest( **kwargs)]: validation, or
      [ValidationError]. *)
  ApiKeyCreateRequest : items -> Result Instance;
  ApiKeyCreateResponse : DataModel;
  ApiKeyRevokeResponse : DataModel;
  CurrentUserInfoResponse : DataModel;
  (** [str] of a value that is not [None], a boolean, an integer or a
      string. *)
  str_of : pyval -> string
}.

(** ** The monad of the client's operations *)

(** Computations over a mutable state [S] that return or raise; what was
    written before an exception is raised stays written. *)
Definition ST (S A : Type) : Type := S -> Result A * S.

Definition ret {S A} (a : A) : ST S A := fun s => (Ok a, s).
Definition raise {S A} (e : exn) : ST S A := fun s => (Raise e, s).
Definition bind {S A B} (m : ST S A) (k : A -> ST S B) : ST S B :=
  fun s => match m s with
           | (Ok a, s') => k a s'
           | (Raise e, s') => (Raise e, s')
           end.
Definition lift {S A} (r : Result A) : ST S A := fun s => (r, s).

(** [try: m except C: h] where [handles] decides [isinstance(e, C)]. *)
Definition try_except {S A} (m : ST S A) (handles : exn -> bool) (h : ST S A)
  : ST S A :=
  fun s => match m s with
           | (Raise e, s') => if handles e then h s' else (Raise e, s')
           | r => r
           end.

(** The client's operations run over the store and the request log. *)
Definition M : Type -> Type := ST State.

Declare Scope py_scope.
Delimit Scope py_scope with py.
Notation "x <- m ;; k" := (bind m (fun x => k))
  (at level 100, m at next level, right associativity) : py_scope.
Notation "m ;; k" := (bind m (fun _ => k))
  (at level 100, right associativity) : py_scope.
Local Open Scope py_scope.

(** A new empty dictionary [{}]. *)
Definition new_dict : M loc :=
  fun s => let l := fresh (dom (heap s)) in
           (Ok l, mkState (<[l := ∅]> (heap s)) (sent s)).

(** [d[k] = v] on the dictionary referenced by [l]. *)
Definition dict_setitem (l : loc) (k v : string) : M unit :=
  fun s => (Ok tt, mkState (alter (insert k v) l (heap s)) (sent s)).

(** The contents of the dictionary referenced by [l]. *)
Definition deref (h : gmap loc (gmap string string)) (l : loc) : gmap string string :=
  default ∅ (h !! l).

(** ** Module constants *)

Definition __VERSION__ : string := "0.1.0".
Definition NEON_API_KEY_ENVIRON : string := "NEON_API_KEY".
Definition NEON_API_BASE_URL : string := "https://console.neon.tech/api/v2/".

(** [compact_mapping(obj)]: [{k: v for k, v in obj.items() if v is not None}] *)
Definition compact_mapping (obj : items) : items :=
  filter (fun kv => is_not_None kv.2 = true) obj.

(** ** requests.Response *)

(** [Response.raise_for_status()] of requests: [HTTPError] when
    [400 <= status_code < 500] (client error) or [500 <= status_code < 600]
    (server error), nothing otherwise.  The message of the exception, built
    from the status, the reason and the URL, is not kept: the only handler
    discards it. *)
Definition raise_for_status (r : Response) : M unit :=
  if Z.leb 400 (status_code r) && Z.ltb (status_code r) 600
  then raise (HTTPError (status_code r))
  else ret tt.

(** [Response.json()] *)
Definition Response_json `{External} (r : Response) : M pyval :=
  match json_loads (text r) with
  | Some v => ret v
  | None => raise JSONDecodeError
  end.

(** ** class NeonAPI *)

Module NeonAPI.
Section WithExternal.
Context `{External}.

(** [NeonAPI.__init__(self, api_key, *, base_url=None)]; the session object
    it creates opens no connection. *)
Definition __init__ (api_key : string) (base : option string) : NeonAPI :=
  let base_url := match base with
                  | Some b => if String.eqb b "" then NEON_API_BASE_URL else b
                  | None => NEON_API_BASE_URL
                  end in
  mkNeonAPI api_key base_url ("neon-client/" +:+ __VERSION__).

(** [self._session.request(method, url, headers=headers, **kwargs)] *)
Definition session_send (method url : string) (headers : loc) (kw : Kwargs)
  : M Response :=
  fun s =>
    let rq := mkRequest method url headers (deref (heap s) headers)
                        (kw_params kw) (kw_json kw) in
    (session_request (sent s) rq, mkState (heap s) (sent s ++ [rq])).

(** [NeonAPI.request(self, method, path, **kwargs)] *)
Definition request (self : NeonAPI) (method path : string) (kw : Kwargs)
  : M pyval :=
  headers <- match kw_headers kw with
             | Some l => ret l
             | None => new_dict
             end ;;
  dict_setitem headers "Authorization" ("Bearer " +:+ _api_key self) ;;
  dict_setitem headers "Accept" "application/json" ;;
  dict_setitem headers "Content-Type" "application/json" ;;
  dict_setitem headers "User-Agent" (user_agent self) ;;
  r <- session_send method (base_url self +:+ path) headers kw ;;
  try_except (raise_for_status r) is_HTTPError
             (raise (NeonClientException (text r))) ;;
  Response_json r.

(** [NeonAPI.url_join(self, *args)] *)
Definition url_join (args : list string) : string :=
  String.concat "/" args.

(** [NeonAPI.from_environ(cls)] with [os.environ] given as a map. *)
Definition from_environ (environ : gmap string string) : M NeonAPI :=
  match environ !! NEON_API_KEY_ENVIRON with
  | Some v => ret (__init__ v None)
  | None => raise (KeyError NEON_API_KEY_ENVIRON)
  end.
End WithExternal.
End NeonAPI.

(** ** Python's generic operations on the values above *)

(** [getattr(o, name)] on a model instance: the instance dictionary, then
    the class. *)
Definition getattr `{External} (o : Instance) (name : string) : Result pyval :=
  match assoc name (inst_dict o) with
  | Some v => Ok v
  | None => match model_class_attr (inst_cls o) name with
            | Some v => Ok v
            | None => Raise (AttributeError name)
            end
  end.

(** [getattr(o, name, None)] *)
Definition getattr_default `{External} (o : Instance) (name : string) : pyval :=
  match getattr o name with
  | Ok v => v
  | Raise _ => PNone
  end.

(** [o[key]] on a model instance.  pydantic's [BaseModel] defines no
    [__getitem__] and the schema classes add no behaviour of their own, so
    the subscription is a type error whatever the key. *)
Definition instance_getitem (o : Instance) (key : string) : Result pyval :=
  Raise (TypeError ("'" +:+ inst_cls o +:+ "' object is not subscriptable")).

(** [v[key]] for a string key. *)
Definition getitem (v : pyval) (key : string) : Result pyval :=
  match v with
  | PDict kvs => match assoc key kvs with
                 | Some x => Ok x
                 | None => Raise (KeyError key)
                 end
  | PList _ => Raise (TypeError "list indices must be integers or slices, not str")
  | PStr _ => Raise (TypeError "string indices must be integers, not 'str'")
  | PModel c d => instance_getitem (mkInstance c d) key
  | _ => Raise (TypeError "object is not subscriptable")
  end.

Fixpoint chars (s : string) : list pyval :=
  match s with
  | EmptyString => []
  | String c rest => PStr (String c EmptyString) :: chars rest
  end.

(** What [for x in v] ranges over: the elements of a list, the keys of a
    dictionary, the characters of a string. *)
Definition iterate (v : pyval) : Result (list pyval) :=
  match v with
  | PList xs => Ok xs
  | PDict kvs => Ok (map (fun kv => PStr kv.1) kvs)
  | PStr s => Ok (chars s)
  | _ => Raise (TypeError "object is not iterable")
  end.

(** [d.setdefault(k, v)] *)
Definition setdefault (k : string) (v : pyval) (d : items) : items :=
  match assoc k d with
  | Some _ => d
  | None => d ++ [(k, v)]
  end.

(** Modelled from the spec: [BaseModel.model_construct], the lenient
    constructor of the schema types, which client.py imports.  Fields present
    in the mapping populate the instance unvalidated, a missing field takes
    its default when it has one and is left unset otherwise, keys that are
    not fields are ignored. *)
Fixpoint construct_fields (fields : list (string * option pyval))
    (values : items) : items :=
  match fields with
  | [] => []
  | (name, dflt) :: rest =>
      match assoc name values, dflt with
      | Some v, _ => (name, v) :: construct_fields rest values
      | None, Some d => (name, d) :: construct_fields rest values
      | None, None => construct_fields rest values
      end
  end.

(** [data_model.model_construct( **data)]: unpacking needs a mapping. *)
Definition model_construct (data_model : DataModel) (data : pyval)
  : Result Instance :=
  match data with
  | PDict kvs =>
      Ok (mkInstance (model_name data_model)
                     (construct_fields (model_fields data_model) kvs))
  | _ => Raise (TypeError "argument after ** must be a mapping")
  end.

(** ** class NeonResource and its subclasses *)

Inductive ResourceClass : Type :=
| cAPIKey | cUser | cProject | cBranch | cOperation.

Definition class_name (c : ResourceClass) : string :=
  match c with
  | cAPIKey => "APIKey"
  | cUser => "User"
  | cProject => "Project"
  | cBranch => "Branch"
  | cOperation => "Operation"
  end.

(** The names each class body binds. *)
Definition NeonResource_body : list string :=
  ["__init__"; "obj"; "__getattribute__"; "__getitem__"; "__repr__"].

Definition class_body (c : ResourceClass) : list string :=
  match c with
  | cAPIKey => ["create"; "list"; "revoke_request"; "revoke"]
  | cUser => ["get_current_user_info"]
  | cProject => ["list"]
  | cBranch => ["list"; "create"]
  | cOperation => []
  end.

(** A proxy: its class and its instance attributes.  [__cached_obj] is
    [None] until the typed view is built. *)
Record NeonResource : Type := mkNeonResource {
  cls : ResourceClass;
  _client : NeonAPI;
  _data : pyval;
  _data_model : DataModel;
  __cached_obj : option Instance
}.

Module NeonResource.
Section WithExternal.
Context `{External}.

(** [NeonResource.__init__(self, client, obj, data_model)] *)
Definition __init__ (c : ResourceClass) (client : NeonAPI) (obj : pyval)
    (data_model : DataModel) : NeonResource :=
  mkNeonResource c client obj data_model None.

(** [self.__cached_obj = self._data_model.model_construct( **self._data)]
    followed by [return self.__cached_obj]. *)
Definition fill_cache : ST NeonResource Instance :=
  fun self =>
    match model_construct (_data_model self) (_data self) with
    | Ok o => (Ok o, mkNeonResource (cls self) (_client self) (_data self)
                                    (_data_model self) (Some o))
    | Raise e => (Raise e, self)
    end.

(** The property [NeonResource.obj]: the cache is filled when
    [not self.__cached_obj] holds, which it does for [None] and for a
    cached object that tests false. *)
Definition obj : ST NeonResource Instance :=
  fun self =>
    match __cached_obj self with
    | None => fill_cache self
    | Some o => if negb (truthy (as_pyval o)) then fill_cache self
                else (Ok o, self)
    end.

(** The value of a method or other class attribute found on class [c]. *)
Definition class_lookup (c : ResourceClass) (name : string) : option pyval :=
  if bool_decide (name ∈ class_body c)
  then Some (PMethod (class_name c +:+ "." +:+ name))
  else if bool_decide (name ∈ NeonResource_body)
  then Some (PMethod ("NeonResource." +:+ name))
  else object_attr name.

(** [super().__getattribute__(name)], that is [object.__getattribute__]: a
    property of the class first, then the instance dictionary (where the
    private name [__cached_obj] is stored mangled), then the classes of
    the method resolution order. *)
Definition object_getattribute (name : string) : ST NeonResource pyval :=
  if String.eqb name "obj" then
    o <- obj ;; ret (as_pyval o)
  else fun self =>
    if String.eqb name "_client" then (Ok (PClient (_client self)), self)
    else if String.eqb name "_data" then (Ok (_data self), self)
    else if String.eqb name "_data_model"
    then (Ok (PClass (model_name (_data_model self))), self)
    else if String.eqb name "_NeonResource__cached_obj"
    then (Ok (from_option as_pyval PNone (__cached_obj self)), self)
    else match class_lookup (cls self) name with
         | Some v => (Ok v, self)
         | None => (Raise (AttributeError name), self)
         end.

Definition is_AttributeError (e : exn) : bool :=
  match e with AttributeError _ => true | _ => false end.

(** [NeonResource.__getattribute__(self, name)] *)
Definition __getattribute__ (name : string) : ST NeonResource pyval :=
  try_except (object_getattribute name) is_AttributeError
             (o <- obj ;; lift (getattr o name)).

(** [NeonResource.__getitem__(self, key)]:
    [getattr(self.obj, key, None) or self.obj[key]] *)
Definition __getitem__ (key : string) : ST NeonResource pyval :=
  o <- obj ;;
  let a := getattr_default o key in
  if truthy a then ret a
  else o' <- obj ;; lift (instance_getitem o' key).
End WithExternal.
End NeonResource.

(** What a replacement field [{value}] of an f-string contributes: [str]
    of the value, which is the text itself for a string and the decimal
    numeral for an integer. *)
Definition format_value `{MoreExternal} (v : pyval) : string :=
  match v with
  | PNone => "None"
  | PBool true => "True"
  | PBool false => "False"
  | PInt n => pretty n
  | PStr s => s
  | _ => str_of v
  end.

(** A method that is handed a proxy works on two mutable objects, the proxy
    and the store with the request log. *)
Definition on_proxy {A} (m : ST NeonResource A) : ST (NeonResource * State) A :=
  fun ps => let '(r, p') := m ps.1 in (r, (p', ps.2)).

Definition on_world {A} (m : M A) : ST (NeonResource * State) A :=
  fun ps => let '(r, s') := m ps.2 in (r, (ps.1, s')).

(** ** The class methods of the resources *)

Module APIKey.
Section WithExternal.
Context `{External}.

(** [APIKey.list(cls, client)] *)
Definition list (c : ResourceClass) (client : NeonAPI) : M (list NeonResource) :=
  r <- NeonAPI.request client "GET" "api_keys" no_kwargs ;;
  xs <- lift (iterate r) ;;
  ret (map (fun x => NeonResource.__init__ c client x ApiKeysListResponseItem) xs).

Context `{MoreExternal}.

(** [APIKey.create(cls, client, key_name)] *)
Definition create (c : ResourceClass) (client : NeonAPI) (key_name : pyval)
  : M NeonResource :=
  o <- lift (ApiKeyCreateRequest [("key_name", key_name)]) ;;
  r <- NeonAPI.request client "POST" "api_keys"
         (mkKwargs None None (Some (model_dump o))) ;;
  ret (NeonResource.__init__ c client r ApiKeyCreateResponse).

(** [APIKey.revoke_request(cls, client, api_key)]; the state is the proxy
    [api_key] together with the store and the log. *)
Definition revoke_request (c : ResourceClass) (client : NeonAPI)
  : ST (NeonResource * State) NeonResource :=
  o <- on_proxy NeonResource.obj ;;
  id <- lift (getattr o "id") ;;
  r <- on_world (NeonAPI.request client "DELETE"
                   ("api_keys/" +:+ format_value id) no_kwargs) ;;
  ret (NeonResource.__init__ c client r ApiKeyRevokeResponse).

(** [APIKey.revoke(self)]: [self.revoke_request] is the class method bound
    to the class of [self]. *)
Definition revoke : ST (NeonResource * State) NeonResource :=
  fun ps => revoke_request (cls ps.1) (_client ps.1) ps.
End WithExternal.
End APIKey.

Module User.
Section WithExternal.
Context `{External} `{MoreExternal}.

(** [User.get_current_user_info(cls, client)] *)
Definition get_current_user_info (c : ResourceClass) (client : NeonAPI)
  : M NeonResource :=
  r <- NeonAPI.request client "GET" "users/me" no_kwargs ;;
  ret (NeonResource.__init__ c client r CurrentUserInfoResponse).
End WithExternal.
End User.

Module Project.
Section WithExternal.
Context `{External}.

(** [Project.list(cls, client, *, shared=False, cursor=None, limit=None)] *)
Definition list (c : ResourceClass) (client : NeonAPI) (shared : bool)
    (cursor limit : pyval) : M (list NeonResource) :=
  let r_path := if negb shared then "projects" else "projects/shared" in
  let r_params := [("cursor", cursor); ("limit", limit)] in
  r <- NeonAPI.request client "GET" r_path (mkKwargs None (Some r_params) None) ;;
  projects <- lift (getitem r "projects") ;;
  xs <- lift (iterate projects) ;;
  ret (map (fun x => NeonResource.__init__ c client x ProjectListItem) xs).
End WithExternal.
End Project.

Module Branch.
Section WithExternal.
Context `{External}.

(** [Branch.list(cls, client, project_id, *, cursor=None, limit=None)];
    the proxies are bound to [schema.ProjectListItem], as in the source. *)
Definition list (c : ResourceClass) (client : NeonAPI) (project_id : string)
    (cursor limit : pyval) : M (list NeonResource) :=
  let r_path := String.concat "/" ["projects"; project_id; "branches"] in
  let r_params := compact_mapping [("cursor", cursor); ("limit", limit)] in
  r <- NeonAPI.request client "GET" r_path (mkKwargs None (Some r_params) None) ;;
  branches <- lift (getitem r "branches") ;;
  xs <- lift (iterate branches) ;;
  ret (map (fun x => NeonResource.__init__ c client x ProjectListItem) xs).

(** [obj.endpoints or obj.branch], tested by the [if]: the right operand
    is evaluated only when the left one is false. *)
Definition endpoints_or_branch (o : Instance) : Result bool :=
  match getattr o "endpoints" with
  | Raise e => Raise e
  | Ok e => if truthy e then Ok true
            else match getattr o "branch" with
                 | Raise e' => Raise e'
                 | Ok b => Ok (truthy b)
                 end
  end.

(** [Branch.create(cls, client, project_id, *, endpoints=None, branch=None,
    **kwargs)] *)
Definition create (c : ResourceClass) (client : NeonAPI) (project_id : string)
    (endpoints branch : pyval) (kwargs : items) : M NeonResource :=
  let kwargs := setdefault "endpoints" endpoints kwargs in
  let kwargs := setdefault "branch" branch kwargs in
  o <- lift (BranchCreateRequest kwargs) ;;
  let r_path := NeonAPI.url_join ["projects"; project_id; "branches"] in
  body <- lift (endpoints_or_branch o) ;;
  r <- (if body : bool
        then NeonAPI.request client "POST" r_path
               (mkKwargs None None (Some (model_dump o)))
        else NeonAPI.request client "POST" r_path no_kwargs) ;;
  ret (NeonResource.__init__ c client r BranchResponse).
End WithExternal.
End Branch.

(** ** The facade *)

(** [NeonAPI.me(self)] *)
Definition me `{External} `{MoreExternal} (self : NeonAPI) : M NeonResource :=
  User.get_current_user_info cUser self.

(** [NeonAPI.api_keys(self)] *)
Definition api_keys `{External} (self : NeonAPI) : M (list NeonResource) :=
  APIKey.list cAPIKey self.

(** ** Vocabulary of the statements *)

(** The four header names [NeonAPI.request] writes. *)
Definition mandatory_headers : list string :=
  ["Authorization"; "Accept"; "Content-Type"; "User-Agent"].

(** The four assignments [headers[...] = ...] of [NeonAPI.request] applied to
    the contents [d] of a dictionary. *)
Definition with_mandatory (self : NeonAPI) (d : gmap string string)
  : gmap string string :=
  <["User-Agent" := user_agent self]>
    (<["Content-Type" := "application/json"]>
       (<["Accept" := "application/json"]>
          (<["Authorization" := "Bearer " +:+ _api_key self]> d))).

(** The reference [kwargs.pop("headers", {})] yields in state [s], and the
    state once a missing dictionary has been created. *)
Definition popped_headers (kw : Kwargs) (s : State) : loc * State :=
  match kw_headers kw with
  | Some l => (l, s)
  | None => (fresh (dom (heap s)),
             mkState (<[fresh (dom (heap s)) := ∅]> (heap s)) (sent s))
  end.

(** What [NeonAPI.request] makes of the session's answer. *)
Definition outcome `{External} (answer : Result Response) : Result pyval :=
  match answer with
  | Raise e => Raise e
  | Ok r =>
      if decide (400 ≤ status_code r < 600)
      then Raise (NeonClientException (text r))
      else match json_loads (text r) with
           | Some v => Ok v
           | None => Raise JSONDecodeError
           end
  end.

(** The call that took the log from [s] to [s'] was answered with a
    response outside the error statuses whose body decodes to [j]. *)
Definition answered `{External} (s s' : State) (j : pyval) : Prop :=
  ∃ rq r, last (sent s') = Some rq ∧ session_request (sent s) rq = Ok r ∧
          ¬ (400 ≤ status_code r < 600) ∧ json_loads (text r) = Some j.

(** The proxies [ps] wrap the elements [xs], one each, in the same order. *)
Definition wraps_in_order (ps : list NeonResource) (xs : list pyval) : Prop :=
  length ps = length xs ∧
  ∀ (i : nat) x, xs !! i = Some x → ∃ p, ps !! i = Some p ∧ _data p = x.

(** The names [object.__getattribute__] resolves on a proxy: the property,
    the instance attributes, what the class bodies bind and what is
    inherited. *)
Definition own_defines `{External} (self : NeonResource) (name : string) : bool :=
  bool_decide (name ∈ ["obj"; "_client"; "_data"; "_data_model";
                       "_NeonResource__cached_obj"])
  || bool_decide (name ∈ class_body (cls self))
  || bool_decide (name ∈ NeonResource_body)
  || bool_decide (is_Some (object_attr name)).

(** The names [getattr] resolves on a typed view. *)
Definition view_defines `{External} (o : Instance) (name : string) : bool :=
  bool_decide (is_Some (assoc name (inst_dict o)))
  || bool_decide (is_Some (model_class_attr (inst_cls o) name)).

(** The proxy after its raw mapping and data model have been replaced. *)
Definition mutated (self : NeonResource) (data : pyval) (data_model : DataModel)
  : NeonResource :=
  mkNeonResource (cls self) (_client self) data data_model (__cached_obj self).

(** The request [NeonAPI.request] hands to the session when no [headers]
    keyword is given. *)
Definition issued (client : NeonAPI) (method path : string) (kw : Kwargs)
    (s : State) : Request :=
  mkRequest method (base_url client +:+ path) (fresh (dom (heap s)))
            (with_mandatory client ∅) (kw_params kw) (kw_json kw).

(** The call that took the log from [s] to [s'] was answered with the
    response [r], whose status is an error status. *)
Definition refused `{External} (s s' : State) (r : Response) : Prop :=
  ∃ rq, last (sent s') = Some rq ∧ session_request (sent s) rq = Ok r ∧
        400 ≤ status_code r < 600.

(** The proxy [self'] is [self] but for a typed view built from its data. *)
Definition at_most_materialized (self self' : NeonResource) : Prop :=
  self' = self ∨
  ∃ o, model_construct (_data_model self) (_data self) = Ok o ∧
       self' = mkNeonResource (cls self) (_client self) (_data self)
                              (_data_model self) (Some o).

(** The sum of the lengths of the segments. *)
Definition total_length (segments : list string) : nat :=
  foldr (fun x n => String.length x + n)%nat 0%nat segments.

(** ** A concrete world to run the client in

    A server with a handful of routes, a decoder given as a table from the
    bodies it knows (short names stand for the JSON text, the empty body
    does not decode) and schema classes shaped like the ones of the Neon
    API.  The properties below hold for every [External]; this one serves to
    evaluate the client on concrete calls. *)

Module Demo.
Definition dq : string := String (Ascii.ascii_of_nat 34) EmptyString.

Definition not_found_body : string :=
  "{" +:+ dq +:+ "message" +:+ dq +:+ ":" +:+ dq +:+ "not found" +:+ dq +:+ "}".

Definition key1 : pyval :=
  PDict [("id", PInt 1); ("name", PStr "ci"); ("last_used_at", PNone)].
Definition key2 : pyval :=
  PDict [("id", PInt 2); ("name", PStr "laptop"); ("last_used_at", PStr "2024-01-22")].
Definition project1 : pyval := PDict [("id", PStr "red-sea"); ("name", PStr "main")].
Definition br1 : pyval := PDict [("id", PStr "br-1"); ("name", PStr "main")].
Definition br2 : pyval := PDict [("id", PStr "br-2"); ("name", PStr "dev")].

Definition routes : list (string * Response) :=
  [ (NEON_API_BASE_URL +:+ "api_keys", mkResponse 200 "keys");
    (NEON_API_BASE_URL +:+ "projects", mkResponse 200 "projects");
    (NEON_API_BASE_URL +:+ "projects/red-sea/branches", mkResponse 200 "branches");
    (NEON_API_BASE_URL +:+ "projects/gone/branches", mkResponse 404 not_found_body);
    (NEON_API_BASE_URL +:+ "projects/cached/branches", mkResponse 304 "") ].

Definition documents : list (string * pyval) :=
  [ ("keys", PList [key1; key2]);
    ("projects", PDict [("projects", PList [project1])]);
    ("branches", PDict [("branches", PList [br1; br2])]);
    ("created", PDict [("branch", br2)]) ].

Definition session (history : list Request) (rq : Request) : Result Response :=
  match assoc (req_url rq) routes with
  | Some r => if String.eqb (req_method rq) "POST"
              then Ok (mkResponse 201 "created")
              else Ok r
  | None => Raise (ConnectionError "no route to host")
  end.

Definition class_attr (c name : string) : option pyval :=
  if bool_decide (name ∈ ["model_dump"; "model_construct"; "model_fields"])
  then Some (PMethod ("BaseModel." +:+ name))
  else None.

Definition inherited (name : string) : option pyval :=
  if String.eqb name "__doc__" then Some PNone else None.

Definition KeyItem : DataModel :=
  mkDataModel "ApiKeysListResponseItem"
    [("id", None); ("name", None); ("created_at", None);
     ("last_used_at", Some PNone); ("last_used_from_addr", Some PNone)].

Definition ProjectItem : DataModel :=
  mkDataModel "ProjectListItem" [("id", None); ("name", None)].

Definition BranchResp : DataModel :=
  mkDataModel "BranchResponse" [("branch", None)].

(** Modelled from the spec: the create-request schema has two optional
    fields, [endpoints] (a list) and [branch] (an object); validation keeps
    a list, turns a mapping into a [Branch2] instance and rejects the
    rest. *)
Definition validate (kwargs : items) : Result Instance :=
  let endpoints := default PNone (assoc "endpoints" kwargs) in
  let branch := default PNone (assoc "branch" kwargs) in
  match endpoints, branch with
  | (PNone | PList _), PNone =>
      Ok (mkInstance "BranchCreateRequest"
            [("endpoints", endpoints); ("branch", PNone)])
  | (PNone | PList _), (PDict d | PModel _ d) =>
      Ok (mkInstance "BranchCreateRequest"
            [("endpoints", endpoints); ("branch", PModel "Branch2" d)])
  | _, _ => Raise (ValidationError "BranchCreateRequest")
  end.

Fixpoint dump (v : pyval) : pyval :=
  match v with
  | PList xs => PList (map dump xs)
  | PDict kvs => PDict (map (fun '(k, x) => (k, dump x)) kvs)
  | PModel _ d => PDict (map (fun '(k, x) => (k, dump x)) d)
  | _ => v
  end.

Definition world : External :=
  {| session_request := session;
     json_loads := fun body => assoc body documents;
     model_class_attr := class_attr;
     object_attr := inherited;
     ApiKeysListResponseItem := KeyItem;
     ProjectListItem := ProjectItem;
     BranchResponse := BranchResp;
     BranchCreateRequest := validate;
     model_dump := fun o => dump (as_pyval o) |}.

Definition client : NeonAPI := NeonAPI.__init__ "s3cr3t" None.

Definition start : State := mkState ∅ [].

(** A caller's header dictionary at reference 1. *)
Definition caller_headers : gmap string string :=
  {[ "X-Request-Id" := "42"; "Accept" := "text/html" ]}.
Definition with_headers : State := mkState {[ 1%positive := caller_headers ]} [].

Definition key_proxy : NeonResource :=
  NeonResource.__init__ cAPIKey client key1 KeyItem.

(** The request logged by a GET of [path] without keywords from [start]. *)
Definition get_request (path : string) : Request :=
  issued client "GET" path no_kwargs start.

(** The keywords of a call that passes the dictionary at reference 1. *)
Definition one_header : Kwargs := mkKwargs (Some 1%positive) None None.
End Demo.

(** A world in which the session gives the same answer to every call and
    the decoder the same result for every body; the rest is as in [Demo]. *)
Module Canned.
Definition world (answer : Result Response) (decoded : option pyval) : External :=
  {| session_request := fun _ _ => answer;
     json_loads := fun _ => decoded;
     model_class_attr := Demo.class_attr;
     object_attr := Demo.inherited;
     ApiKeysListResponseItem := Demo.KeyItem;
     ProjectListItem := Demo.ProjectItem;
     BranchResponse := Demo.BranchResp;
     BranchCreateRequest := Demo.validate;
     model_dump := fun o => Demo.dump (as_pyval o) |}.

Definition ok : Response := mkResponse 200 "body".

(** Modelled from the spec: the create-request schema of an API key has the
    one field [key_name], a string. *)
Definition validate_key (kwargs : items) : Result Instance :=
  match assoc "key_name" kwargs with
  | Some (PStr s) => Ok (mkInstance "ApiKeyCreateRequest" [("key_name", PStr s)])
  | _ => Raise (ValidationError "ApiKeyCreateRequest")
  end.

Definition more : MoreExternal :=
  {| ApiKeyCreateRequest := validate_key;
     ApiKeyCreateResponse :=
       mkDataModel "ApiKeyCreateResponse" [("id", None); ("key", None)];
     ApiKeyRevokeResponse :=
       mkDataModel "ApiKeyRevokeResponse" [("id", None); ("revoked", None)];
     CurrentUserInfoResponse :=
       mkDataModel "CurrentUserInfoResponse" [("id", None); ("email", None)];
     str_of := fun _ => "<object>" |}.

(** A proxy over a response element that is not a mapping. *)
Definition string_proxy : NeonResource :=
  NeonResource.__init__ cAPIKey Demo.client (PStr "id") Demo.KeyItem.

(** A proxy over a key without [id]. *)
Definition nameless_proxy : NeonResource :=
  NeonResource.__init__ cAPIKey Demo.client
    (PDict [("name", PStr "ci")]) Demo.KeyItem.

(** The session answers 404, the session is down, the session answers 200
    with a body that decodes to [j]. *)
Definition refusing : External :=
  world (Ok (mkResponse 404 Demo.not_found_body)) None.
Definition down : External := world (Raise (ConnectionError "down")) None.
Definition answering (j : pyval) : External := world (Ok ok) (Some j).

(** The typed view of [Demo.key_proxy]. *)
Definition key_view : Instance :=
  mkInstance "ApiKeysListResponseItem"
    [("id", PInt 1); ("name", PStr "ci"); ("last_used_at", PNone);
     ("last_used_from_addr", PNone)].

(** A create request for a branch that validates in [Demo.world]. *)
Definition branch_request : Instance :=
  mkInstance "BranchCreateRequest"
    [("endpoints", PNone); ("branch", PModel "Branch2" [])].

Definition me_body : pyval := PDict [("id", PStr "u-1"); ("email", PStr "a@b.c")].
End Canned.

(** ** Properties of NeonAPI.request *)

Section RequestFacts.
Context `{External}.
Implicit Types (self : NeonAPI) (kw : Kwargs) (s : State) (l : loc)
               (d : gmap string string) (rq : Request) (r : Response).

Lemma raise_for_status_error r s :
  400 ≤ status_code r < 600 →
  raise_for_status r s = (Raise (HTTPError (status_code r)), s).
Proof.
  intros [Hlo Hhi]. unfold raise_for_status.
  apply Z.leb_le in Hlo. apply Z.ltb_lt in Hhi.
  by rewrite Hlo, Hhi.
Qed.

Lemma raise_for_status_pass r s :
  ¬ (400 ≤ status_code r < 600) → raise_for_status r s = (Ok tt, s).
Proof.
  intros Hn. unfold raise_for_status.
  destruct (Z.leb_spec 400 (status_code r)), (Z.ltb_spec (status_code r) 600);
    simpl; try done.
  exfalso. apply Hn. lia.
Qed.

(** The status check followed by decoding, on a response in hand. *)
Lemma check_and_decode r s :
  bind (try_except (raise_for_status r) is_HTTPError
                   (raise (NeonClientException (text r))))
       (fun _ => Response_json r) s
  = (outcome (Ok r), s).
Proof.
  unfold bind, try_except, outcome. case_decide as Hst.
  - by rewrite raise_for_status_error.
  - rewrite raise_for_status_pass by done.
    unfold Response_json. by destruct (json_loads (text r)).
Qed.

(** One call of [request] in closed form: the four assignments hit the
    popped dictionary, one call goes to the session, and the answer is
    turned into the result. *)
Lemma request_run self method path kw s :
  let '(l, s0) := popped_headers kw s in
  let h := alter (with_mandatory self) l (heap s0) in
  let rq := mkRequest method (base_url self +:+ path) l (deref h l)
                      (kw_params kw) (kw_json kw) in
  NeonAPI.request self method path kw s
  = (outcome (session_request (sent s) rq), mkState h (sent s ++ [rq])).
Proof.
  unfold popped_headers, NeonAPI.request.
  assert (Hstep : ∀ l s0, sent s0 = sent s →
    bind (dict_setitem l "Authorization" ("Bearer " +:+ _api_key self)) (fun _ =>
    bind (dict_setitem l "Accept" "application/json") (fun _ =>
    bind (dict_setitem l "Content-Type" "application/json") (fun _ =>
    bind (dict_setitem l "User-Agent" (user_agent self)) (fun _ =>
    bind (NeonAPI.session_send method (base_url self +:+ path) l kw) (fun r =>
    bind (try_except (raise_for_status r) is_HTTPError
                     (raise (NeonClientException (text r))))
         (fun _ => Response_json r)))))) s0
    = (outcome (session_request (sent s)
          (mkRequest method (base_url self +:+ path) l
             (deref (alter (with_mandatory self) l (heap s0)) l)
             (kw_params kw) (kw_json kw))),
       mkState (alter (with_mandatory self) l (heap s0))
          (sent s ++ [mkRequest method (base_url self +:+ path) l
             (deref (alter (with_mandatory self) l (heap s0)) l)
             (kw_params kw) (kw_json kw)]))).
  { intros l s0 Hs0. unfold bind at 1 2 3 4 5. simpl.
    rewrite !alter_alter_eq. rewrite Hs0.
    change (insert "User-Agent" (user_agent self)
            ∘ (insert "Content-Type" "application/json"
            ∘ (insert "Accept" "application/json"
            ∘ insert "Authorization" ("Bearer " +:+ _api_key self))))
      with (with_mandatory self).
    destruct (session_request _ _) as [r|e] eqn:Hans; [|done].
    apply check_and_decode. }
  destruct (kw_headers kw) as [l|].
  - unfold bind at 1. simpl. by apply Hstep.
  - unfold bind at 1. simpl. by apply Hstep.
Qed.

Lemma with_mandatory_lookup self d :
  with_mandatory self d !! "Authorization" = Some ("Bearer " +:+ _api_key self) ∧
  with_mandatory self d !! "Accept" = Some "application/json" ∧
  with_mandatory self d !! "Content-Type" = Some "application/json" ∧
  with_mandatory self d !! "User-Agent" = Some (user_agent self).
Proof. unfold with_mandatory. repeat split; by simplify_map_eq. Qed.

Lemma with_mandatory_frame self d k :
  k ∉ mandatory_headers → with_mandatory self d !! k = d !! k.
Proof.
  unfold mandatory_headers, with_mandatory. intros Hk.
  rewrite !lookup_insert_ne; [done | intros <-; apply Hk; set_solver ..].
Qed.

(** The request handed to the session when the caller passes the
    dictionary at [l], whose contents are [d]. *)
Lemma request_run_supplied self method path kw s l d :
  kw_headers kw = Some l → heap s !! l = Some d →
  let rq := mkRequest method (base_url self +:+ path) l (with_mandatory self d)
                      (kw_params kw) (kw_json kw) in
  NeonAPI.request self method path kw s
  = (outcome (session_request (sent s) rq),
     mkState (<[l := with_mandatory self d]> (heap s)) (sent s ++ [rq])).
Proof.
  intros Hkw Hl. pose proof (request_run self method path kw s) as Hrun.
  unfold popped_headers in Hrun. rewrite Hkw in Hrun.
  assert (Halt : alter (with_mandatory self) l (heap s)
                 = <[l := with_mandatory self d]> (heap s)).
  { apply map_eq. intros l'. destruct (decide (l = l')) as [<-|Hne].
    - by rewrite lookup_alter_eq, lookup_insert_eq, Hl.
    - by rewrite lookup_alter_ne, lookup_insert_ne. }
  rewrite Halt in Hrun. unfold deref in Hrun.
  rewrite lookup_insert_eq in Hrun. exact Hrun.
Qed.

(** The same when no [headers] keyword is given: the dictionary is new. *)
Lemma request_run_default self method path kw s :
  kw_headers kw = None →
  let l := fresh (dom (heap s)) in
  let rq := mkRequest method (base_url self +:+ path) l (with_mandatory self ∅)
                      (kw_params kw) (kw_json kw) in
  NeonAPI.request self method path kw s
  = (outcome (session_request (sent s) rq),
     mkState (<[l := with_mandatory self ∅]> (heap s)) (sent s ++ [rq])).
Proof.
  intros Hkw. pose proof (request_run self method path kw s) as Hrun.
  unfold popped_headers in Hrun. rewrite Hkw in Hrun. simpl in Hrun.
  rewrite alter_insert_eq in Hrun. unfold deref in Hrun.
  rewrite lookup_insert_eq in Hrun. exact Hrun.
Qed.

(** Whatever the keywords, exactly one request is logged, with the method
    and URL asked for, the keywords passed on, and the merged headers. *)
Lemma request_logs_one self method path kw s :
  (∀ l, kw_headers kw = Some l → is_Some (heap s !! l)) →
  ∃ rq d,
    NeonAPI.request self method path kw s
    = (outcome (session_request (sent s) rq),
       mkState (<[req_headers_ref rq := with_mandatory self d]> (heap s))
               (sent s ++ [rq])) ∧
    req_method rq = method ∧ req_url rq = base_url self +:+ path ∧
    req_params rq = kw_params kw ∧ req_json rq = kw_json kw ∧
    req_headers rq = with_mandatory self d ∧
    (∀ l, kw_headers kw = Some l → req_headers_ref rq = l ∧ heap s !! l = Some d).
Proof.
  intros Hwf. destruct (kw_headers kw) as [l|] eqn:Hkw.
  - destruct (Hwf l eq_refl) as [d Hd].
    exists (mkRequest method (base_url self +:+ path) l (with_mandatory self d)
                      (kw_params kw) (kw_json kw)), d.
    split; [by apply request_run_supplied|].
    simpl. split_and!; try done. by intros ? [= <-].
  - exists (mkRequest method (base_url self +:+ path) (fresh (dom (heap s)))
                      (with_mandatory self ∅) (kw_params kw) (kw_json kw)), ∅.
    split; [by apply request_run_default|].
    simpl. split_and!; done.
Qed.

(** C1, as amended.  When the session answers a call of [request] with a
    response whose status is an error status (400 to 599), the call raises
    [NeonClientException] carrying the response text unchanged; with any
    other status (2xx, but also 1xx and 3xx) it returns the decoded body,
    or the decoder's error when the body is not JSON.  Either way exactly
    one request went to the session. *)
Theorem request_status_outcome self method path kw s rq r :
  last (sent (NeonAPI.request self method path kw s).2) = Some rq →
  session_request (sent s) rq = Ok r →
  sent (NeonAPI.request self method path kw s).2 = sent s ++ [rq] ∧
  (400 ≤ status_code r < 600 →
     (NeonAPI.request self method path kw s).1
     = Raise (NeonClientException (text r))) ∧
  (¬ (400 ≤ status_code r < 600) →
     (NeonAPI.request self method path kw s).1
     = match json_loads (text r) with
       | Some v => Ok v
       | None => Raise JSONDecodeError
       end).
Proof.
  intros Hlast Hans.
  pose proof (request_run self method path kw s) as Hrun.
  destruct (popped_headers kw s) as [l s0]. simpl in Hrun.
  rewrite Hrun in *. simpl in *.
  rewrite last_snoc in Hlast. injection Hlast as <-.
  rewrite Hans. unfold outcome.
  split; [done|]. split; intros Hst; case_decide; done.
Qed.

(** C2.  For a client built by [NeonAPI.__init__], whatever headers
    dictionary the caller passes (or none), the request handed to the
    session carries Authorization, Accept, Content-Type and User-Agent
    with their values, and every entry of the caller's dictionary under
    another name as it was. *)
Theorem request_carries_mandatory_headers api_key base method path kw s :
  (∀ l, kw_headers kw = Some l → is_Some (heap s !! l)) →
  ∃ rq,
    sent (NeonAPI.request (NeonAPI.__init__ api_key base) method path kw s).2
    = sent s ++ [rq] ∧
    req_headers rq !! "Authorization" = Some ("Bearer " +:+ api_key) ∧
    req_headers rq !! "Accept" = Some "application/json" ∧
    req_headers rq !! "Content-Type" = Some "application/json" ∧
    req_headers rq !! "User-Agent" = Some ("neon-client/" +:+ __VERSION__) ∧
    (∀ l d k, kw_headers kw = Some l → heap s !! l = Some d →
              k ∉ mandatory_headers → req_headers rq !! k = d !! k).
Proof.
  intros Hwf. set (self := NeonAPI.__init__ api_key base).
  destruct (request_logs_one self method path kw s Hwf)
    as (rq & d & -> & _ & _ & _ & _ & Hh & Hsup).
  exists rq. rewrite Hh.
  destruct (with_mandatory_lookup self d) as (? & ? & ? & ?).
  repeat split; try done.
  intros l d' k Hkw Hl Hk. destruct (Hsup l Hkw) as [_ Hd].
  rewrite Hl in Hd. injection Hd as ->. by apply with_mandatory_frame.
Qed.

(** C10.  The dictionary the caller passes as [headers] is the one
    [request] writes to: after the call, whatever its outcome, that
    dictionary maps the four mandatory names to the client's values (any
    value the caller had there is overwritten), its other entries are as
    before, it is the object handed to the session, and no other
    dictionary of the store has changed. *)
Theorem request_mutates_caller_headers self method path kw s l d :
  kw_headers kw = Some l → heap s !! l = Some d →
  ∃ rq d',
    sent (NeonAPI.request self method path kw s).2 = sent s ++ [rq] ∧
    req_headers_ref rq = l ∧
    heap (NeonAPI.request self method path kw s).2 !! l = Some d' ∧
    d' !! "Authorization" = Some ("Bearer " +:+ _api_key self) ∧
    d' !! "Accept" = Some "application/json" ∧
    d' !! "Content-Type" = Some "application/json" ∧
    d' !! "User-Agent" = Some (user_agent self) ∧
    (∀ k, k ∉ mandatory_headers → d' !! k = d !! k) ∧
    (∀ l', l' ≠ l →
       heap (NeonAPI.request self method path kw s).2 !! l' = heap s !! l').
Proof.
  intros Hkw Hl. rewrite (request_run_supplied self method path kw s l d Hkw Hl).
  simpl. eexists _, (with_mandatory self d).
  destruct (with_mandatory_lookup self d) as (? & ? & ? & ?).
  repeat split; try done.
  - by rewrite lookup_insert_eq.
  - intros k Hk. by apply with_mandatory_frame.
  - intros l' Hne. by rewrite lookup_insert_ne.
Qed.
End RequestFacts.

(** ** Properties of the class methods *)

Section ClassMethodFacts.
Context `{External}.
Implicit Types (client : NeonAPI) (s : State) (c : ResourceClass).

Lemma request_issued client method path kw s :
  kw_headers kw = None →
  NeonAPI.request client method path kw s
  = (outcome (session_request (sent s) (issued client method path kw s)),
     mkState (<[fresh (dom (heap s)) := with_mandatory client ∅]> (heap s))
             (sent s ++ [issued client method path kw s])).
Proof. apply request_run_default. Qed.

(** A computation that follows a request and touches neither the store
    nor the log. *)
Lemma bind_request_lift {A} client method path kw s (f : pyval → Result A) :
  kw_headers kw = None →
  bind (NeonAPI.request client method path kw) (fun r => lift (f r)) s
  = (match outcome (session_request (sent s) (issued client method path kw s)) with
     | Ok r => f r
     | Raise e => Raise e
     end,
     mkState (<[fresh (dom (heap s)) := with_mandatory client ∅]> (heap s))
             (sent s ++ [issued client method path kw s])).
Proof.
  intros Hkw. unfold bind. rewrite request_issued by done.
  by destruct (outcome _).
Qed.

Lemma outcome_answered s s' j rq :
  answered s s' j → last (sent s') = Some rq →
  outcome (session_request (sent s) rq) = Ok j.
Proof.
  intros (rq' & r & Hlast & Hans & Hst & Hj) Hrq.
  rewrite Hlast in Hrq. injection Hrq as ->.
  rewrite Hans. unfold outcome. case_decide; [done|]. by rewrite Hj.
Qed.

Lemma map_wraps_in_order c client dm xs :
  wraps_in_order (map (fun x => NeonResource.__init__ c client x dm) xs) xs.
Proof.
  split; [by rewrite length_map|].
  intros i x Hx. exists (NeonResource.__init__ c client x dm).
  split; [|done]. by rewrite list_lookup_fmap, Hx.
Qed.

Lemma APIKey_list_run c client s :
  APIKey.list c client s
  = bind (NeonAPI.request client "GET" "api_keys" no_kwargs)
      (fun r => lift (match iterate r with
                      | Ok xs => Ok (map (fun x => NeonResource.__init__ c client x
                                                     ApiKeysListResponseItem) xs)
                      | Raise e => Raise e
                      end)) s.
Proof.
  unfold APIKey.list, bind, lift, ret.
  destruct (NeonAPI.request _ _ _ _ s) as [[r|e] s']; [|done].
  by destruct (iterate r).
Qed.

Lemma Project_list_run c client shared cursor limit s :
  Project.list c client shared cursor limit s
  = bind (NeonAPI.request client "GET"
            (if negb shared then "projects" else "projects/shared")
            (mkKwargs None (Some [("cursor", cursor); ("limit", limit)]) None))
      (fun r => lift (match getitem r "projects" with
                      | Ok a => match iterate a with
                                | Ok xs => Ok (map (fun x => NeonResource.__init__ c client x
                                                               ProjectListItem) xs)
                                | Raise e => Raise e
                                end
                      | Raise e => Raise e
                      end)) s.
Proof.
  unfold Project.list, bind, lift, ret.
  destruct (NeonAPI.request _ _ _ _ s) as [[r|e] s']; [|done].
  destruct (getitem r "projects") as [a|]; [|done]. by destruct (iterate a).
Qed.

Lemma Branch_list_run c client project_id cursor limit s :
  Branch.list c client project_id cursor limit s
  = bind (NeonAPI.request client "GET"
            (String.concat "/" ["projects"; project_id; "branches"])
            (mkKwargs None
               (Some (compact_mapping [("cursor", cursor); ("limit", limit)]))
               None))
      (fun r => lift (match getitem r "branches" with
                      | Ok a => match iterate a with
                                | Ok xs => Ok (map (fun x => NeonResource.__init__ c client x
                                                               ProjectListItem) xs)
                                | Raise e => Raise e
                                end
                      | Raise e => Raise e
                      end)) s.
Proof.
  unfold Branch.list, bind, lift, ret.
  destruct (NeonAPI.request _ _ _ _ s) as [[r|e] s']; [|done].
  destruct (getitem r "branches") as [a|]; [|done]. by destruct (iterate a).
Qed.

(** C3.  When the request of a list operation is answered with a
    non-error response, the operation returns one proxy per element of
    the array of the decoded body (the body itself for [APIKey.list], its
    [projects] entry for [Project.list], its [branches] entry for
    [Branch.list]), the i-th proxy wrapping the i-th element. *)
Theorem list_returns_one_proxy_per_element c client s j xs :
  (answered s (APIKey.list c client s).2 j → j = PList xs →
   ∃ ps, (APIKey.list c client s).1 = Ok ps ∧ wraps_in_order ps xs) ∧
  (∀ shared cursor limit,
     answered s (Project.list c client shared cursor limit s).2 j →
     getitem j "projects" = Ok (PList xs) →
     ∃ ps, (Project.list c client shared cursor limit s).1 = Ok ps ∧
           wraps_in_order ps xs) ∧
  (∀ project_id cursor limit,
     answered s (Branch.list c client project_id cursor limit s).2 j →
     getitem j "branches" = Ok (PList xs) →
     ∃ ps, (Branch.list c client project_id cursor limit s).1 = Ok ps ∧
           wraps_in_order ps xs).
Proof.
  split_and!.
  - rewrite APIKey_list_run, bind_request_lift by done. simpl.
    intros Hans ->. erewrite outcome_answered; [|done|apply last_snoc].
    simpl. eexists. split; [done|]. apply map_wraps_in_order.
  - intros shared cursor limit.
    rewrite Project_list_run, bind_request_lift by done. simpl.
    intros Hans Hj. erewrite outcome_answered; [|done|apply last_snoc].
    rewrite Hj. simpl. eexists. split; [done|]. apply map_wraps_in_order.
  - intros project_id cursor limit.
    rewrite Branch_list_run, bind_request_lift by done. simpl.
    intros Hans Hj. erewrite outcome_answered; [|done|apply last_snoc].
    rewrite Hj. simpl. eexists. split; [done|]. apply map_wraps_in_order.
Qed.

Lemma compact_mapping_elem obj k v :
  (k, v) ∈ compact_mapping obj ↔ (k, v) ∈ obj ∧ v ≠ PNone.
Proof.
  unfold compact_mapping. rewrite list_elem_of_filter. simpl.
  split.
  - intros [Hv Hin]. split; [done|]. by intros ->.
  - intros [Hin Hv]. split; [|done]. by destruct v.
Qed.

(** C8.  [compact_mapping] keeps exactly the entries whose value is not
    [None], in their order, so that values such as [0] and the empty
    string stay; [Branch.list] sends its [cursor] and [limit] compacted,
    [Project.list] sends them as they are, [None] included. *)
Theorem compaction_only_in_branch_list c client s cursor limit :
  (∀ obj k v, (k, v) ∈ compact_mapping obj ↔ (k, v) ∈ obj ∧ v ≠ PNone) ∧
  (∀ obj, compact_mapping obj `sublist_of` obj) ∧
  compact_mapping [("cursor", PInt 0); ("limit", PNone); ("name", PStr "")]
    = [("cursor", PInt 0); ("name", PStr "")] ∧
  (∀ project_id, ∃ rq,
     sent (Branch.list c client project_id cursor limit s).2 = sent s ++ [rq] ∧
     req_params rq
     = Some (compact_mapping [("cursor", cursor); ("limit", limit)])) ∧
  (∀ shared, ∃ rq,
     sent (Project.list c client shared cursor limit s).2 = sent s ++ [rq] ∧
     req_params rq = Some [("cursor", cursor); ("limit", limit)]).
Proof.
  split_and!.
  - apply compact_mapping_elem.
  - intros obj. apply sublist_filter.
  - done.
  - intros project_id. rewrite Branch_list_run, bind_request_lift by done.
    by eexists.
  - intros shared. rewrite Project_list_run, bind_request_lift by done.
    by eexists.
Qed.
End ClassMethodFacts.

(** ** Properties of the proxy *)

Section ProxyFacts.
Context `{External}.
Implicit Types (self : NeonResource) (o : Instance) (name key : string).

Lemma obj_cached self o :
  __cached_obj self = Some o → NeonResource.obj self = (Ok o, self).
Proof. intros Hc. unfold NeonResource.obj. by rewrite Hc. Qed.

Lemma obj_fresh self :
  __cached_obj self = None →
  NeonResource.obj self
  = match model_construct (_data_model self) (_data self) with
    | Ok o => (Ok o, mkNeonResource (cls self) (_client self) (_data self)
                                    (_data_model self) (Some o))
    | Raise e => (Raise e, self)
    end.
Proof. intros Hc. unfold NeonResource.obj. by rewrite Hc. Qed.

(** A successful access leaves the view in the cache and nothing else
    changed; [model_construct] raises nothing but [TypeError]. *)
Lemma obj_inv self :
  match NeonResource.obj self with
  | (Ok o, self') =>
      self' = mkNeonResource (cls self) (_client self) (_data self)
                             (_data_model self) (Some o)
  | (Raise e, self') => self' = self ∧ ∃ msg, e = TypeError msg
  end.
Proof.
  destruct self as [c cl data dm [o|]].
  - by rewrite (obj_cached _ o).
  - rewrite obj_fresh by done. simpl. unfold model_construct.
    destruct data; simpl; eauto.
Qed.

Lemma obj_stable self o self1 :
  NeonResource.obj self = (Ok o, self1) → NeonResource.obj self1 = (Ok o, self1).
Proof.
  intros Hobj. pose proof (obj_inv self) as Hinv. rewrite Hobj in Hinv.
  subst self1. by apply obj_cached.
Qed.

Lemma not_own_eqb self name :
  own_defines self name = false →
  String.eqb name "obj" = false ∧ String.eqb name "_client" = false ∧
  String.eqb name "_data" = false ∧ String.eqb name "_data_model" = false ∧
  String.eqb name "_NeonResource__cached_obj" = false ∧
  NeonResource.class_lookup (cls self) name = None.
Proof.
  unfold own_defines, NeonResource.class_lookup.
  intros Hown. repeat (apply orb_false_elim in Hown as [Hown ?]).
  apply bool_decide_eq_false in Hown.
  split_and!; try (apply String.eqb_neq; intros ->; apply Hown; set_solver).
  repeat case_bool_decide; try done.
  by apply eq_None_not_Some.
Qed.

Lemma object_getattribute_not_own self name :
  own_defines self name = false →
  NeonResource.object_getattribute name self = (Raise (AttributeError name), self).
Proof.
  intros Hown. destruct (not_own_eqb self name Hown) as (E1 & E2 & E3 & E4 & E5 & E6).
  unfold NeonResource.object_getattribute. by rewrite E1, E2, E3, E4, E5, E6.
Qed.

Lemma class_lookup_own self name :
  own_defines self name = true →
  String.eqb name "obj" = false → String.eqb name "_client" = false →
  String.eqb name "_data" = false → String.eqb name "_data_model" = false →
  String.eqb name "_NeonResource__cached_obj" = false →
  is_Some (NeonResource.class_lookup (cls self) name).
Proof.
  unfold own_defines, NeonResource.class_lookup.
  intros Hown E1 E2 E3 E4 E5.
  apply String.eqb_neq in E1, E2, E3, E4, E5.
  destruct (bool_decide (name ∈ _)) eqn:Hinst in Hown.
  { apply bool_decide_eq_true in Hinst. set_unfold in Hinst.
    repeat (destruct Hinst as [?|Hinst]; [done|]). done. }
  repeat case_bool_decide; simpl in Hown; done.
Qed.

Lemma object_getattribute_own self name :
  own_defines self name = true → name ≠ "obj" →
  ∃ v, NeonResource.object_getattribute name self = (Ok v, self).
Proof.
  intros Hown Hobj. unfold NeonResource.object_getattribute.
  destruct (String.eqb name "obj") eqn:E1;
    [by apply String.eqb_eq in E1|].
  destruct (String.eqb name "_client") eqn:E2; [by eexists|].
  destruct (String.eqb name "_data") eqn:E3; [by eexists|].
  destruct (String.eqb name "_data_model") eqn:E4; [by eexists|].
  destruct (String.eqb name "_NeonResource__cached_obj") eqn:E5; [by eexists|].
  destruct (class_lookup_own self name Hown E1 E2 E3 E4 E5) as [v ->].
  by eexists.
Qed.

(** The own tier never answers [AttributeError] for a name it defines. *)
Lemma object_getattribute_own_no_miss self name :
  own_defines self name = true →
  ∀ a, (NeonResource.object_getattribute name self).1 ≠ Raise (AttributeError a).
Proof.
  intros Hown a. destruct (decide (name = "obj")) as [->|Hne].
  - unfold NeonResource.object_getattribute. simpl. unfold bind.
    pose proof (obj_inv self) as Hinv.
    destruct (NeonResource.obj self) as [[o|e] self']; simpl; [done|].
    destruct Hinv as [_ [msg ->]]. done.
  - destruct (object_getattribute_own self name Hown Hne) as [v ->]. done.
Qed.

Lemma getattribute_own self name :
  own_defines self name = true →
  NeonResource.__getattribute__ name self = NeonResource.object_getattribute name self.
Proof.
  intros Hown. pose proof (object_getattribute_own_no_miss self name Hown) as Hno.
  unfold NeonResource.__getattribute__, try_except.
  destruct (NeonResource.object_getattribute name self) as [[v|e] self']; [done|].
  destruct e; simpl; try done. by destruct (Hno name0).
Qed.

Lemma getattribute_not_own self name :
  own_defines self name = false →
  NeonResource.__getattribute__ name self
  = match NeonResource.obj self with
    | (Ok o, self') => (getattr o name, self')
    | (Raise e, self') => (Raise e, self')
    end.
Proof.
  intros Hown. unfold NeonResource.__getattribute__, try_except.
  rewrite object_getattribute_not_own by done. simpl. unfold bind, lift.
  by destruct (NeonResource.obj self) as [[o|e] self'].
Qed.

Lemma getattr_miss o name a :
  getattr o name = Raise (AttributeError a) → view_defines o name = false.
Proof.
  unfold getattr, view_defines.
  destruct (assoc name (inst_dict o)); [done|].
  destruct (model_class_attr (inst_cls o) name); [done|]. intros _.
  apply orb_false_intro; apply bool_decide_eq_false; by intros [? ?].
Qed.

(** C7.  Attribute lookup on a proxy has two tiers.  A name the proxy
    itself defines (the [obj] property, an instance attribute, a method of
    its classes, an inherited attribute) is answered by the proxy and the
    typed view's attributes are not consulted; any other name is looked up
    on the typed view; and [AttributeError] comes out only when neither
    the proxy nor the typed view defines the name. *)
Theorem getattribute_two_tier self name :
  (own_defines self name = true →
     NeonResource.__getattribute__ name self = NeonResource.object_getattribute name self ∧
     (name ≠ "obj" → ∃ v, NeonResource.__getattribute__ name self = (Ok v, self))) ∧
  (own_defines self name = false →
     ∀ o self', NeonResource.obj self = (Ok o, self') →
                NeonResource.__getattribute__ name self = (getattr o name, self')) ∧
  (∀ a, (NeonResource.__getattribute__ name self).1 = Raise (AttributeError a) →
        own_defines self name = false ∧
        ∃ o, (NeonResource.obj self).1 = Ok o ∧ view_defines o name = false).
Proof.
  split_and!.
  - intros Hown. split; [by apply getattribute_own|].
    intros Hne. rewrite getattribute_own by done.
    by apply object_getattribute_own.
  - intros Hown o self' Hobj. rewrite getattribute_not_own by done.
    by rewrite Hobj.
  - intros a Hres. destruct (own_defines self name) eqn:Hown.
    + rewrite getattribute_own in Hres by done.
      by destruct (object_getattribute_own_no_miss self name Hown a).
    + split; [done|]. rewrite getattribute_not_own in Hres by done.
      pose proof (obj_inv self) as Hinv.
      destruct (NeonResource.obj self) as [[o|e] self']; simpl in *.
      * exists o. split; [done|]. by eapply getattr_miss.
      * destruct Hinv as [_ [msg ->]]. done.
Qed.

(** [proxy[key]] once the typed view is known. *)
Lemma getitem_run self key o self' :
  NeonResource.obj self = (Ok o, self') →
  NeonResource.__getitem__ key self
  = (if truthy (getattr_default o key) then Ok (getattr_default o key)
     else instance_getitem o key, self').
Proof.
  intros Hobj. unfold NeonResource.__getitem__, bind. rewrite Hobj.
  destruct (truthy (getattr_default o key)); [done|].
  by rewrite (obj_stable self o self' Hobj).
Qed.

Lemma getitem_fst self key :
  (NeonResource.__getitem__ key self).1
  = match (NeonResource.obj self).1 with
    | Ok o => if truthy (getattr_default o key) then Ok (getattr_default o key)
              else instance_getitem o key
    | Raise e => Raise e
    end.
Proof.
  destruct (NeonResource.obj self) as [[o|e] self'] eqn:Hobj.
  - by rewrite (getitem_run self key o self' Hobj).
  - unfold NeonResource.__getitem__, bind. by rewrite Hobj.
Qed.

(** Whatever the proxy and the key, [proxy[key]] ends in a true attribute
    of the typed view or in [TypeError]: the subscription of the second tier
    never yields a value and never raises [KeyError]. *)
Lemma getitem_never_key_error self key :
  match (NeonResource.__getitem__ key self).1 with
  | Ok v => truthy v = true
  | Raise e => ∃ msg, e = TypeError msg
  end.
Proof.
  rewrite getitem_fst. pose proof (obj_inv self) as Hinv.
  destruct (NeonResource.obj self) as [[o|e] self']; simpl.
  - destruct (truthy (getattr_default o key)) eqn:Ht; [done|].
    unfold instance_getitem. by eexists.
  - by destruct Hinv as [_ ?].
Qed.

Lemma getattribute_fst self name :
  (NeonResource.__getattribute__ name self).1
  = if own_defines self name then (NeonResource.object_getattribute name self).1
    else match (NeonResource.obj self).1 with
         | Ok o => getattr o name
         | Raise e => Raise e
         end.
Proof.
  destruct (own_defines self name) eqn:Hown.
  - by rewrite getattribute_own.
  - rewrite getattribute_not_own by done.
    by destruct (NeonResource.obj self) as [[o|e] self'].
Qed.

Lemma construct_fields_lookup fields values name v :
  name ∈ fields.*1 → assoc name values = Some v →
  assoc name (construct_fields fields values) = Some v.
Proof.
  intros Hin Hv. induction fields as [|[f dflt] fields IH]; [by apply elem_of_nil in Hin|].
  simpl in *. destruct (decide (name = f)) as [->|Hne].
  - rewrite Hv. simpl. by rewrite String.eqb_refl.
  - apply elem_of_cons in Hin as [?|Hin]; [done|].
    assert (String.eqb name f = false) as Hf by by apply String.eqb_neq.
    destruct (assoc f values), dflt; simpl; rewrite ?Hf; by apply IH.
Qed.

(** C5.  The first access to [obj] on a new proxy builds the typed view
    from the raw mapping with [model_construct] and stores it; from then on
    [obj] returns the stored view and leaves the proxy as it is, whatever
    the raw mapping and the data model have become; attribute and item
    lookups give the same result before and after the view exists (the
    cache slot itself apart), and a declared field present in the mapping
    reads as the mapping's value both times. *)
Theorem typed_view_memoized self o self1 :
  __cached_obj self = None →
  NeonResource.obj self = (Ok o, self1) →
  model_construct (_data_model self) (_data self) = Ok o ∧
  self1 = mkNeonResource (cls self) (_client self) (_data self)
                         (_data_model self) (Some o) ∧
  (∀ data' model', NeonResource.obj (mutated self1 data' model')
                   = (Ok o, mutated self1 data' model')) ∧
  (∀ name, name ≠ "_NeonResource__cached_obj" →
     (NeonResource.__getattribute__ name self).1
     = (NeonResource.__getattribute__ name self1).1) ∧
  (∀ key, (NeonResource.__getitem__ key self).1 = (NeonResource.__getitem__ key self1).1) ∧
  (∀ name kvs v,
     _data self = PDict kvs → assoc name kvs = Some v →
     name ∈ (model_fields (_data_model self)).*1 →
     own_defines self name = false →
     (NeonResource.__getattribute__ name self).1 = Ok v ∧
     (NeonResource.__getattribute__ name self1).1 = Ok v).
Proof.
  intros Hnone Hobj.
  pose proof (obj_stable self o self1 Hobj) as Hobj1.
  pose proof (obj_inv self) as Hinv. rewrite Hobj in Hinv.
  assert (Hmc : model_construct (_data_model self) (_data self) = Ok o).
  { rewrite obj_fresh in Hobj by done.
    destruct (model_construct _ _); by inversion Hobj. }
  assert (Hsame : ∀ name, name ≠ "_NeonResource__cached_obj" →
     (NeonResource.__getattribute__ name self).1
     = (NeonResource.__getattribute__ name self1).1).
  { intros name Hne. rewrite !getattribute_fst, Hobj, Hobj1.
    replace (own_defines self1 name) with (own_defines self name)
      by by rewrite Hinv.
    destruct (own_defines self name); [|done].
    unfold NeonResource.object_getattribute.
    destruct (String.eqb name "obj"); [unfold bind; by rewrite Hobj, Hobj1|].
    destruct (String.eqb_spec name "_NeonResource__cached_obj"); [done|].
    rewrite Hinv. simpl.
    repeat (match goal with |- context [if ?b then _ else _] => destruct b end;
            try done).
    by destruct (NeonResource.class_lookup _ _). }
  split_and!; try done.
  - intros data' model'. apply obj_cached. by rewrite Hinv.
  - intros key. by rewrite !getitem_fst, Hobj, Hobj1.
  - intros name kvs v Hdata Hv Hfield Hown.
    rewrite <- Hsame by (intros ->; by vm_compute in Hown).
    assert ((NeonResource.__getattribute__ name self).1 = Ok v) as Hread; [|done].
    rewrite getattribute_fst, Hown, Hobj. simpl.
    unfold model_construct in Hmc. rewrite Hdata in Hmc.
    injection Hmc as <-. unfold getattr. simpl.
    by rewrite (construct_fields_lookup _ _ _ v).
Qed.
End ProxyFacts.

(** ** Properties of Branch.create and NeonAPI.from_environ *)

Section CreateFacts.
Context `{External}.

(** C4, as amended.  [Branch.create] posts to the branches of the
    project; the request has no [json] keyword at all when the [endpoints]
    and the [branch] of the validated request object both test false
    ([None], an empty list), and carries [model_dump()] of the validated
    object as its JSON body when either tests true. *)
Theorem create_body_iff_nonempty c client project_id endpoints branch kwargs s
    o e b :
  BranchCreateRequest
    (setdefault "branch" branch (setdefault "endpoints" endpoints kwargs)) = Ok o →
  getattr o "endpoints" = Ok e →
  getattr o "branch" = Ok b →
  ∃ rq,
    sent (Branch.create c client project_id endpoints branch kwargs s).2
    = sent s ++ [rq] ∧
    req_method rq = "POST" ∧
    req_url rq
    = base_url client +:+ NeonAPI.url_join ["projects"; project_id; "branches"] ∧
    req_json rq = (if truthy e || truthy b then Some (model_dump o) else None).
Proof.
  intros Hval He Hb. unfold Branch.create.
  unfold bind at 1. unfold lift at 1. rewrite Hval.
  unfold bind at 1. unfold lift at 1.
  unfold Branch.endpoints_or_branch. rewrite He.
  destruct (truthy e) eqn:Hte; [|rewrite Hb; destruct (truthy b) eqn:Htb];
    simpl; unfold bind; rewrite request_issued by done;
    eexists; (split; [by destruct (outcome _)|done]).
Qed.

(** C9.  [from_environ] depends on the environment through NEON_API_KEY
    alone; without it the call raises [KeyError] and the request log is as
    it was, with it the call returns a client whose API key is the
    variable's value. *)
Theorem from_environ_reads_api_key (environ : gmap string string) s :
  (environ !! NEON_API_KEY_ENVIRON = None →
     NeonAPI.from_environ environ s = (Raise (KeyError "NEON_API_KEY"), s)) ∧
  (∀ v, environ !! NEON_API_KEY_ENVIRON = Some v →
     ∃ client, NeonAPI.from_environ environ s = (Ok client, s) ∧
               _api_key client = v) ∧
  (∀ environ' : gmap string string,
     environ' !! NEON_API_KEY_ENVIRON = environ !! NEON_API_KEY_ENVIRON →
     NeonAPI.from_environ environ' s = NeonAPI.from_environ environ s).
Proof.
  unfold NeonAPI.from_environ. split_and!.
  - by intros ->.
  - intros v ->. by eexists.
  - by intros environ' ->.
Qed.
End CreateFacts.

(** ** The client on concrete calls *)

Section Runs.
Import Demo.

(** Counterexample to C1 as stated: answered with status 304, which is not
    a 2xx status, [request] raises no [NeonClientException]; it goes on to
    decode the body. *)
Lemma request_not_modified_counterexample :
  ∃ rq r,
    sent (NeonAPI.request (H:=world) client "GET" "projects/cached/branches"
                         no_kwargs start).2 = [rq] ∧
    session_request (External:=world) [] rq = Ok r ∧
    ¬ (200 ≤ status_code r < 300) ∧
    (NeonAPI.request (H:=world) client "GET" "projects/cached/branches"
                    no_kwargs start).1 = Raise JSONDecodeError ∧
    (NeonAPI.request (H:=world) client "GET" "projects/cached/branches"
                    no_kwargs start).1 ≠ Raise (NeonClientException (text r)).
Proof.
  exists (get_request "projects/cached/branches"), (mkResponse 304 "").
  split_and!; [reflexivity | reflexivity | simpl; lia | reflexivity | discriminate].
Qed.

Lemma request_status_outcome_witness :
  last (sent (NeonAPI.request (H:=world) client "GET" "projects/gone/branches"
                             no_kwargs start).2)
    = Some (get_request "projects/gone/branches") ∧
  session_request (External:=world) (sent start)
                  (get_request "projects/gone/branches")
    = Ok (mkResponse 404 not_found_body) ∧
  (NeonAPI.request (H:=world) client "GET" "projects/gone/branches"
                  no_kwargs start).1
    = Raise (NeonClientException not_found_body).
Proof.
  split_and!; [reflexivity | reflexivity |].
  apply (request_status_outcome (H:=world) client "GET" "projects/gone/branches"
           no_kwargs start (get_request "projects/gone/branches")
           (mkResponse 404 not_found_body));
    [reflexivity | reflexivity | simpl; lia].
Defined.

Lemma request_carries_mandatory_headers_witness :
  (∀ l, kw_headers one_header = Some l → is_Some (heap with_headers !! l)) ∧
  ∃ rq,
    sent (NeonAPI.request (H:=world) (NeonAPI.__init__ "s3cr3t" None) "GET"
                         "api_keys" one_header with_headers).2 = [rq] ∧
    req_headers rq !! "Authorization" = Some "Bearer s3cr3t" ∧
    req_headers rq !! "User-Agent" = Some "neon-client/0.1.0" ∧
    req_headers rq !! "X-Request-Id" = Some "42".
Proof.
  assert (Hwf : ∀ l, kw_headers one_header = Some l →
                     is_Some (heap with_headers !! l)).
  { intros l [= <-]. by eexists. }
  split; [exact Hwf|].
  destruct (request_carries_mandatory_headers (H:=world) "s3cr3t" None "GET"
              "api_keys" one_header with_headers Hwf)
    as (rq & Hlog & Hauth & _ & _ & Hua & Hother).
  exists rq. split_and!; [exact Hlog | exact Hauth | exact Hua |].
  rewrite (Hother 1%positive caller_headers "X-Request-Id");
    [reflexivity | reflexivity | reflexivity |].
  unfold mandatory_headers. intros Hin. set_unfold in Hin.
  repeat (destruct Hin as [Hin|Hin]; [discriminate|]). done.
Defined.

Lemma request_mutates_caller_headers_witness :
  kw_headers one_header = Some 1%positive ∧
  heap with_headers !! 1%positive = Some caller_headers ∧
  ∃ d',
    heap (NeonAPI.request (H:=world) client "GET" "api_keys" one_header
                         with_headers).2 !! 1%positive = Some d' ∧
    d' !! "Accept" = Some "application/json" ∧
    d' !! "X-Request-Id" = caller_headers !! "X-Request-Id".
Proof.
  split_and!; [reflexivity | reflexivity |].
  destruct (request_mutates_caller_headers (H:=world) client "GET" "api_keys"
              one_header with_headers 1%positive caller_headers
              eq_refl eq_refl)
    as (rq & d' & _ & _ & Hd' & _ & Hacc & _ & _ & Hother & _).
  exists d'. split_and!; [exact Hd' | exact Hacc |].
  apply Hother. unfold mandatory_headers. intros Hin. set_unfold in Hin.
  repeat (destruct Hin as [Hin|Hin]; [discriminate|]). done.
Defined.

Lemma answered_keys : answered (H:=world) start
    (APIKey.list (H:=world) cAPIKey client start).2 (PList [key1; key2]).
Proof.
  exists (get_request "api_keys"), (mkResponse 200 "keys").
  split_and!; [reflexivity | reflexivity | simpl; lia | reflexivity].
Qed.

Lemma list_returns_one_proxy_per_element_witness :
  answered (H:=world) start (APIKey.list (H:=world) cAPIKey client start).2
           (PList [key1; key2]) ∧
  ∃ ps, (APIKey.list (H:=world) cAPIKey client start).1 = Ok ps ∧
        wraps_in_order ps [key1; key2].
Proof.
  split; [exact answered_keys|].
  exact (proj1 (list_returns_one_proxy_per_element (H:=world) cAPIKey client
                  start (PList [key1; key2]) [key1; key2])
               answered_keys eq_refl).
Defined.

(** Counterexample to C4 as stated: [endpoints] is supplied, as an empty
    list, the request object validates, and the POST has no body. *)
Lemma create_empty_endpoints_counterexample :
  PList [] ≠ PNone ∧
  BranchCreateRequest (External:=world)
    (setdefault "branch" PNone (setdefault "endpoints" (PList []) []))
    = Ok (mkInstance "BranchCreateRequest"
            [("endpoints", PList []); ("branch", PNone)]) ∧
  map req_json (sent (Branch.create (H:=world) cBranch client "red-sea"
                                    (PList []) PNone [] start).2) = [None].
Proof. split_and!; [discriminate | reflexivity | reflexivity]. Qed.

Lemma create_body_iff_nonempty_witness :
  BranchCreateRequest (External:=world)
    (setdefault "branch" (PDict []) (setdefault "endpoints" PNone []))
    = Ok (mkInstance "BranchCreateRequest"
            [("endpoints", PNone); ("branch", PModel "Branch2" [])]) ∧
  ∃ rq,
    sent (Branch.create (H:=world) cBranch client "red-sea" PNone (PDict []) []
                        start).2 = [rq] ∧
    req_method rq = "POST" ∧
    req_json rq = Some (PDict [("endpoints", PNone); ("branch", PDict [])]).
Proof.
  split; [reflexivity|].
  destruct (create_body_iff_nonempty (H:=world) cBranch client "red-sea" PNone
              (PDict []) [] start
              (mkInstance "BranchCreateRequest"
                 [("endpoints", PNone); ("branch", PModel "Branch2" [])])
              PNone (PModel "Branch2" []) eq_refl eq_refl eq_refl)
    as (rq & Hlog & Hm & _ & Hjson).
  exists rq. split_and!; [exact Hlog | exact Hm | exact Hjson].
Defined.

Lemma from_environ_reads_api_key_witness :
  NeonAPI.from_environ ∅ start = (Raise (KeyError "NEON_API_KEY"), start) ∧
  ∃ c, NeonAPI.from_environ {[ "NEON_API_KEY" := "s3cr3t" ]} start = (Ok c, start) ∧
       _api_key c = "s3cr3t".
Proof.
  split.
  - exact (proj1 (from_environ_reads_api_key ∅ start) eq_refl).
  - exact (proj1 (proj2 (from_environ_reads_api_key
                           {[ "NEON_API_KEY" := "s3cr3t" ]} start))
                 "s3cr3t" eq_refl).
Defined.

Lemma typed_view_memoized_witness :
  __cached_obj key_proxy = None ∧
  (NeonResource.__getattribute__ (H:=world) "name" key_proxy).1 = Ok (PStr "ci") ∧
  (NeonResource.__getattribute__ (H:=world) "name" (NeonResource.obj key_proxy).2).1
    = Ok (PStr "ci").
Proof.
  split; [reflexivity|].
  apply (proj2 (proj2 (proj2 (proj2 (proj2
           (typed_view_memoized (H:=world) key_proxy
              (mkInstance "ApiKeysListResponseItem"
                 [("id", PInt 1); ("name", PStr "ci"); ("last_used_at", PNone);
                  ("last_used_from_addr", PNone)])
              (NeonResource.obj key_proxy).2 eq_refl eq_refl)))))
         "name" [("id", PInt 1); ("name", PStr "ci"); ("last_used_at", PNone)]
         (PStr "ci") eq_refl eq_refl);
    [|reflexivity].
  apply (bool_decide_unpack _). vm_compute. exact I.
Defined.

Lemma getattribute_two_tier_witness :
  own_defines (H:=world) key_proxy "list" = true ∧
  own_defines (H:=world) key_proxy "name" = false ∧
  NeonResource.__getattribute__ (H:=world) "list" key_proxy
    = NeonResource.object_getattribute (H:=world) "list" key_proxy ∧
  NeonResource.__getattribute__ (H:=world) "name" key_proxy
    = (Ok (PStr "ci"), (NeonResource.obj key_proxy).2).
Proof.
  split_and!; [reflexivity | reflexivity | |].
  - exact (proj1 (proj1 (getattribute_two_tier (H:=world) key_proxy "list")
                        eq_refl)).
  - exact (proj1 (proj2 (getattribute_two_tier (H:=world) key_proxy "name"))
                 eq_refl _ _ eq_refl).
Defined.

(** C6 on the code: a field the response holds as [None] has a false
    attribute, so [proxy[key]] goes on to subscript the typed view, and a
    pydantic model cannot be subscripted; the same happens for a key found
    in neither tier.  The lookup ends in [TypeError], not in a value and
    not in [KeyError]. *)
Theorem getitem_falls_back_to_type_error :
  getattr (H:=world) (mkInstance "ApiKeysListResponseItem"
                        [("id", PInt 1); ("name", PStr "ci");
                         ("last_used_at", PNone); ("last_used_from_addr", PNone)])
          "last_used_at" = Ok PNone ∧
  (NeonResource.__getitem__ (H:=world) "last_used_at" key_proxy).1
    = Raise (TypeError "'ApiKeysListResponseItem' object is not subscriptable") ∧
  (NeonResource.__getitem__ (H:=world) "nope" key_proxy).1
    = Raise (TypeError "'ApiKeysListResponseItem' object is not subscriptable") ∧
  (NeonResource.__getitem__ (H:=world) "name" key_proxy).1 = Ok (PStr "ci").
Proof. split_and!; reflexivity. Qed.
End Runs.

(** ** Further properties: helpers, the transport, the constructor *)

Section HelperFacts.
Context `{External}.
Implicit Types (self : NeonAPI) (kw : Kwargs) (s : State) (l : loc)
               (d : gmap string string) (rq : Request) (obj : items).

Lemma append_assoc (a b c : string) : (a +:+ b) +:+ c = a +:+ (b +:+ c).
Proof.
  induction a as [|x a IH]; [reflexivity|].
  change (String x ((a +:+ b) +:+ c) = String x (a +:+ b +:+ c)). by rewrite IH.
Qed.

Lemma length_append (a b : string) :
  String.length (a +:+ b) = (String.length a + String.length b)%nat.
Proof.
  induction a as [|x a IH]; [reflexivity|].
  change (S (String.length (a +:+ b)) = S (String.length a + String.length b)).
  by rewrite IH.
Qed.

Lemma url_join_cons a b rest :
  NeonAPI.url_join (a :: b :: rest) = a +:+ "/" +:+ NeonAPI.url_join (b :: rest).
Proof. done. Qed.

(** X1.  [url_join] puts one separator between consecutive segments and
    nothing else: no segments give the empty string, one segment gives
    itself, joining two non-empty lists of segments is joining each and
    putting a separator in between, and the length of the result is the
    total length of the segments plus one per gap (nothing is stripped,
    encoded or normalised). *)
Theorem url_join_segments :
  NeonAPI.url_join [] = "" ∧
  (∀ a, NeonAPI.url_join [a] = a) ∧
  (∀ xs ys, xs ≠ [] → ys ≠ [] →
     NeonAPI.url_join (xs ++ ys)
     = NeonAPI.url_join xs +:+ "/" +:+ NeonAPI.url_join ys) ∧
  (∀ xs, String.length (NeonAPI.url_join xs)
         = (total_length xs + (length xs - 1))%nat).
Proof.
  split_and!; [done | done | |].
  - intros xs ys Hxs Hys. induction xs as [|a [|b xs] IH]; [done| |].
    + destruct ys as [|y ys]; [done|]. by rewrite <- url_join_cons.
    + change ((a :: b :: xs) ++ ys) with (a :: b :: (xs ++ ys)).
      rewrite !url_join_cons.
      change (b :: xs ++ ys) with ((b :: xs) ++ ys).
      rewrite IH by done. by rewrite !append_assoc.
  - intros xs. induction xs as [|a [|b xs] IH]; [done | |].
    + change (NeonAPI.url_join [a]) with a. unfold total_length. simpl. lia.
    + rewrite url_join_cons, !length_append, IH.
      change (total_length (a :: b :: xs))
        with (String.length a + total_length (b :: xs))%nat.
      change (String.length "/") with 1%nat. simpl length. lia.
Qed.

Lemma compact_mapping_cons k v obj :
  compact_mapping ((k, v) :: obj)
  = if is_not_None v then (k, v) :: compact_mapping obj else compact_mapping obj.
Proof.
  unfold compact_mapping. rewrite filter_cons. simpl.
  destruct (is_not_None v); by case_decide.
Qed.

(** X2.  Compacting twice is compacting once, compaction never lengthens
    a mapping, and it returns the mapping itself exactly when no value is
    [None]. *)
Theorem compact_mapping_idempotent obj :
  compact_mapping (compact_mapping obj) = compact_mapping obj ∧
  (length (compact_mapping obj) ≤ length obj)%nat ∧
  (compact_mapping obj = obj ↔ ∀ k, (k, PNone) ∉ obj).
Proof.
  split_and!.
  - unfold compact_mapping. by apply list_filter_filter_l.
  - apply length_filter.
  - induction obj as [|[k v] obj IH].
    { split; [intros _ k' Hin; by apply elem_of_nil in Hin | done]. }
    rewrite compact_mapping_cons. destruct (is_not_None v) eqn:Hv.
    + split.
      * intros [= Heq] k' Hin.
        apply elem_of_cons in Hin as [[= -> <-]|Hin]; [done|].
        by apply (proj1 IH Heq k').
      * intros Hno. f_equal. apply IH. intros k' Hin. apply (Hno k'). by right.
    + destruct v; try done. split.
      * intros Heq.
        pose proof (length_filter
                      (fun kv : string * pyval => is_not_None kv.2 = true) obj) as Hlen.
        fold (compact_mapping obj) in Hlen. rewrite Heq in Hlen.
        simpl in Hlen. lia.
      * intros Hno. destruct (Hno k). by left.
Qed.

(** X3.  In a mapping whose keys are distinct, compaction removes a key
    exactly when its value is [None] and leaves the value found under every
    other key as it was. *)
Theorem compact_mapping_lookup obj k :
  NoDup obj.*1 →
  assoc k (compact_mapping obj)
  = match assoc k obj with
    | Some PNone => None
    | found => found
    end.
Proof.
  intros Hnd. induction obj as [|[k' v] obj IH]; [done|].
  apply NoDup_cons in Hnd as [Hk' Hnd]. rewrite compact_mapping_cons.
  assert (Hfresh : ∀ o : items, k' ∉ o.*1 → assoc k' o = None).
  { clear. intros o Ho. induction o as [|[a b] o IHo]; [done|]. simpl.
    destruct (String.eqb_spec k' a) as [->|Hne]; [destruct Ho; by left|].
    apply IHo. intros Hin. apply Ho. by right. }
  simpl. destruct (String.eqb_spec k k') as [->|Hne].
  - destruct v; simpl; rewrite ?String.eqb_refl; try done.
    apply Hfresh. intros Hin. apply Hk'.
    apply list_elem_of_fmap in Hin as ([a b] & -> & Hin).
    apply compact_mapping_elem in Hin as [Hin _].
    apply list_elem_of_fmap. by exists (a, b).
  - assert (String.eqb k k' = false) as Hf by by apply String.eqb_neq.
    destruct (is_not_None v); simpl; rewrite ?Hf; by apply IH.
Qed.

(** X4.  A failure of the transport itself is not wrapped: when the
    session raises instead of answering, [request] raises the same
    exception, after the one attempt. *)
Theorem request_transport_error_unwrapped self method path kw s rq e :
  last (sent (NeonAPI.request self method path kw s).2) = Some rq →
  session_request (sent s) rq = Raise e →
  (NeonAPI.request self method path kw s).1 = Raise e ∧
  sent (NeonAPI.request self method path kw s).2 = sent s ++ [rq].
Proof.
  intros Hlast Hans. pose proof (request_run self method path kw s) as Hrun.
  destruct (popped_headers kw s) as [l s0]. simpl in Hrun.
  rewrite Hrun in *. simpl in *.
  rewrite last_snoc in Hlast. injection Hlast as <-. by rewrite Hans.
Qed.

(** X5.  Called without a [headers] keyword, [request] writes to a
    dictionary of its own: every dictionary that existed before the call is
    unchanged after it, and the store has grown by exactly the new one. *)
Theorem request_default_headers_frame self method path kw s :
  kw_headers kw = None →
  (∀ l, is_Some (heap s !! l) →
        heap (NeonAPI.request self method path kw s).2 !! l = heap s !! l) ∧
  (fresh (dom (heap s)) ∉ dom (heap s)) ∧
  (dom (heap (NeonAPI.request self method path kw s).2)
   = {[fresh (dom (heap s))]} ∪ dom (heap s)).
Proof.
  intros Hkw. rewrite request_run_default by done. simpl.
  pose proof (is_fresh (dom (heap s))) as Hfresh. split_and!; [|done|].
  - intros l Hl. apply lookup_insert_ne. intros <-.
    apply Hfresh. by apply elem_of_dom.
  - by rewrite dom_insert_L.
Qed.

Lemma with_mandatory_idem self d :
  with_mandatory self (with_mandatory self d) = with_mandatory self d.
Proof.
  apply map_eq. intros k.
  destruct (with_mandatory_lookup self d) as (Ha & Hb & Hc & Hd).
  destruct (with_mandatory_lookup self (with_mandatory self d)) as (Ha' & Hb' & Hc' & Hd').
  destruct (decide (k ∈ mandatory_headers)) as [Hin|Hout].
  - unfold mandatory_headers in Hin. set_unfold in Hin.
    destruct Hin as [->|[->|[->|[->|[]]]]]; congruence.
  - by rewrite with_mandatory_frame.
Qed.

(** X6.  A caller may pass the same headers dictionary to call after
    call: the first call writes the four headers into it, the second finds
    them, leaves the store as it is and sends the same headers. *)
Theorem request_headers_reuse self method1 path1 kw1 method2 path2 kw2 s l d :
  kw_headers kw1 = Some l → kw_headers kw2 = Some l → heap s !! l = Some d →
  ∃ rq1 rq2,
    sent (NeonAPI.request self method2 path2 kw2
            (NeonAPI.request self method1 path1 kw1 s).2).2
    = sent s ++ [rq1; rq2] ∧
    req_headers rq2 = req_headers rq1 ∧
    heap (NeonAPI.request self method2 path2 kw2
            (NeonAPI.request self method1 path1 kw1 s).2).2
    = heap (NeonAPI.request self method1 path1 kw1 s).2.
Proof.
  intros Hkw1 Hkw2 Hl.
  rewrite (request_run_supplied self method1 path1 kw1 s l d Hkw1 Hl). simpl.
  rewrite (request_run_supplied self method2 path2 kw2 _ l (with_mandatory self d) Hkw2)
    by (simpl; apply lookup_insert_eq).
  simpl. rewrite with_mandatory_idem. eexists _, _.
  split_and!; [by rewrite <- app_assoc | done | by rewrite insert_insert_eq].
Qed.

(** X7.  The base URL of a client is never empty: without an override, or
    with an empty one, requests go to the default base URL followed by the
    path; a non-empty override is used as it is. *)
Theorem request_url_from_base api_key base method path kw s :
  base_url (NeonAPI.__init__ api_key base) ≠ "" ∧
  ∃ rq,
    sent (NeonAPI.request (NeonAPI.__init__ api_key base) method path kw s).2
    = sent s ++ [rq] ∧
    req_method rq = method ∧
    req_url rq = match base with
                 | None | Some "" => NEON_API_BASE_URL +:+ path
                 | Some b => b +:+ path
                 end.
Proof.
  split.
  - unfold NeonAPI.__init__. simpl. destruct base as [b|]; [|done].
    destruct (String.eqb_spec b ""); [done|done].
  - pose proof (request_run (NeonAPI.__init__ api_key base) method path kw s) as Hrun.
    destruct (popped_headers kw s) as [l s0]. simpl in Hrun. rewrite Hrun. simpl.
    eexists. split_and!; [done | done |]. simpl.
    destruct base as [[|c b]|]; done.
Qed.
End HelperFacts.

(** ** Further properties: the class methods *)

Section MoreClassFacts.
Context `{External} `{MoreExternal}.
Implicit Types (client : NeonAPI) (s : State) (c : ResourceClass)
               (resp : Response) (j : pyval).

Lemma outcome_refused s s' resp rq :
  refused s s' resp → last (sent s') = Some rq →
  outcome (session_request (sent s) rq) = Raise (NeonClientException (text resp)).
Proof.
  intros (rq' & Hlast & Hans & Hst) Hrq.
  rewrite Hlast in Hrq. injection Hrq as ->.
  rewrite Hans. unfold outcome. by case_decide.
Qed.

(** A request whose answer is wrapped in one proxy. *)
Lemma bind_request_ret {A} client method path kw s (f : pyval → A) :
  kw_headers kw = None →
  bind (NeonAPI.request client method path kw) (fun r => ret (f r)) s
  = (match outcome (session_request (sent s) (issued client method path kw s)) with
     | Ok r => Ok (f r)
     | Raise e => Raise e
     end,
     mkState (<[fresh (dom (heap s)) := with_mandatory client ∅]> (heap s))
             (sent s ++ [issued client method path kw s])).
Proof.
  intros Hkw.
  exact (bind_request_lift client method path kw s (fun r => Ok (f r)) Hkw).
Qed.

Lemma Branch_create_run c client project_id endpoints branch kwargs s o b :
  BranchCreateRequest
    (setdefault "branch" branch (setdefault "endpoints" endpoints kwargs)) = Ok o →
  Branch.endpoints_or_branch o = Ok b →
  Branch.create c client project_id endpoints branch kwargs s
  = bind (NeonAPI.request client "POST"
            (NeonAPI.url_join ["projects"; project_id; "branches"])
            (if b then mkKwargs None None (Some (model_dump o)) else no_kwargs))
         (fun r => ret (NeonResource.__init__ c client r BranchResponse)) s.
Proof.
  intros Hval Hb. unfold Branch.create.
  unfold bind at 1. unfold lift at 1. rewrite Hval.
  unfold bind at 1. unfold lift at 1. rewrite Hb. by destruct b.
Qed.

Lemma APIKey_create_run c client key_name s o :
  ApiKeyCreateRequest [("key_name", key_name)] = Ok o →
  APIKey.create c client key_name s
  = bind (NeonAPI.request client "POST" "api_keys"
            (mkKwargs None None (Some (model_dump o))))
         (fun r => ret (NeonResource.__init__ c client r ApiKeyCreateResponse)) s.
Proof.
  intros Hval. unfold APIKey.create.
  unfold bind at 1. unfold lift at 1. by rewrite Hval.
Qed.

(** X8.  Each list operation makes exactly one call, a GET without a
    body: [APIKey.list] of [api_keys] without query parameters,
    [Project.list] of [projects/shared] when [shared] holds and of [projects]
    otherwise, [Branch.list] of the branches of the project.  No operation
    follows a cursor on its own. *)
Theorem list_issues_one_get c client s :
  (∃ rq, sent (APIKey.list c client s).2 = sent s ++ [rq] ∧
         req_method rq = "GET" ∧ req_url rq = base_url client +:+ "api_keys" ∧
         req_params rq = None ∧ req_json rq = None) ∧
  (∀ shared cursor limit, ∃ rq,
     sent (Project.list c client shared cursor limit s).2 = sent s ++ [rq] ∧
     req_method rq = "GET" ∧
     req_url rq
     = base_url client +:+ (if shared then "projects/shared" else "projects") ∧
     req_json rq = None) ∧
  (∀ project_id cursor limit, ∃ rq,
     sent (Branch.list c client project_id cursor limit s).2 = sent s ++ [rq] ∧
     req_method rq = "GET" ∧
     req_url rq = base_url client +:+ "projects/" +:+ project_id +:+ "/branches" ∧
     req_json rq = None).
Proof.
  split_and!.
  - rewrite APIKey_list_run, bind_request_lift by done. by eexists.
  - intros shared cursor limit.
    rewrite Project_list_run, bind_request_lift by done.
    eexists. split_and!; try done. simpl. by destruct shared.
  - intros project_id cursor limit.
    rewrite Branch_list_run, bind_request_lift by done. by eexists.
Qed.

(** X9.  [Branch.list] and [Branch.create] address the same URL for the
    same project, although the one builds the path with [str.join] and the
    other with [url_join]. *)
Theorem branch_list_and_create_same_url c client project_id cursor limit
    endpoints branch kwargs s s' o b :
  BranchCreateRequest
    (setdefault "branch" branch (setdefault "endpoints" endpoints kwargs)) = Ok o →
  Branch.endpoints_or_branch o = Ok b →
  ∃ rq rq',
    sent (Branch.list c client project_id cursor limit s).2 = sent s ++ [rq] ∧
    sent (Branch.create c client project_id endpoints branch kwargs s').2
    = sent s' ++ [rq'] ∧
    req_url rq = req_url rq'.
Proof.
  intros Hval Hb.
  rewrite Branch_list_run, bind_request_lift by done.
  rewrite (Branch_create_run _ _ _ _ _ _ _ o b Hval Hb).
  rewrite bind_request_ret by by destruct b.
  by eexists _, _.
Qed.

(** X10.  The resource methods surface an HTTP error as it is: when the
    one request of a list operation, of [get_current_user_info], or of a
    create operation whose arguments validated is answered with an error
    status, the method raises [NeonClientException] with the response text
    and returns no proxy. *)
Theorem resource_methods_surface_http_error c client s (r : Response) :
  (refused s (APIKey.list c client s).2 r →
     (APIKey.list c client s).1 = Raise (NeonClientException (text r))) ∧
  (∀ shared cursor limit,
     refused s (Project.list c client shared cursor limit s).2 r →
     (Project.list c client shared cursor limit s).1
     = Raise (NeonClientException (text r))) ∧
  (∀ project_id cursor limit,
     refused s (Branch.list c client project_id cursor limit s).2 r →
     (Branch.list c client project_id cursor limit s).1
     = Raise (NeonClientException (text r))) ∧
  (refused s (User.get_current_user_info c client s).2 r →
     (User.get_current_user_info c client s).1
     = Raise (NeonClientException (text r))) ∧
  (∀ key_name o,
     ApiKeyCreateRequest [("key_name", key_name)] = Ok o →
     refused s (APIKey.create c client key_name s).2 r →
     (APIKey.create c client key_name s).1 = Raise (NeonClientException (text r))) ∧
  (∀ project_id endpoints branch kwargs o b,
     BranchCreateRequest
       (setdefault "branch" branch (setdefault "endpoints" endpoints kwargs)) = Ok o →
     Branch.endpoints_or_branch o = Ok b →
     refused s (Branch.create c client project_id endpoints branch kwargs s).2 r →
     (Branch.create c client project_id endpoints branch kwargs s).1
     = Raise (NeonClientException (text r))).
Proof.
  split_and!.
  - rewrite APIKey_list_run, bind_request_lift by done. simpl. intros Href.
    by erewrite outcome_refused; [|done|apply last_snoc].
  - intros shared cursor limit.
    rewrite Project_list_run, bind_request_lift by done. simpl. intros Href.
    by erewrite outcome_refused; [|done|apply last_snoc].
  - intros project_id cursor limit.
    rewrite Branch_list_run, bind_request_lift by done. simpl. intros Href.
    by erewrite outcome_refused; [|done|apply last_snoc].
  - unfold User.get_current_user_info. rewrite bind_request_ret by done.
    simpl. intros Href. by erewrite outcome_refused; [|done|apply last_snoc].
  - intros key_name o Hval. rewrite (APIKey_create_run _ _ _ _ o Hval).
    rewrite bind_request_ret by done.
    simpl. intros Href. by erewrite outcome_refused; [|done|apply last_snoc].
  - intros project_id endpoints branch kwargs o b Hval Hb.
    rewrite (Branch_create_run _ _ _ _ _ _ _ o b Hval Hb).
    rewrite bind_request_ret by by destruct b.
    simpl. intros Href. by erewrite outcome_refused; [|done|apply last_snoc].
Qed.

(** X11.  Validation comes before the network: when the arguments of
    [APIKey.create] or of [Branch.create] do not validate, the validation
    error is what the method raises, and neither the request log nor the
    store has changed. *)
Theorem create_validation_precedes_request c client s e :
  (∀ key_name,
     ApiKeyCreateRequest [("key_name", key_name)] = Raise e →
     APIKey.create c client key_name s = (Raise e, s)) ∧
  (∀ project_id endpoints branch kwargs,
     BranchCreateRequest
       (setdefault "branch" branch (setdefault "endpoints" endpoints kwargs))
     = Raise e →
     Branch.create c client project_id endpoints branch kwargs s = (Raise e, s)).
Proof.
  split.
  - intros key_name Hval. unfold APIKey.create, bind, lift. by rewrite Hval.
  - intros project_id endpoints branch kwargs Hval.
    unfold Branch.create, bind, lift. by rewrite Hval.
Qed.

(** X12.  [APIKey.create] with a name that validates posts the dump of the
    validated request object to [api_keys], once and without query
    parameters, and when the answer is not an error it returns one proxy
    over the decoded body, bound to the create-response schema, with no
    typed view built yet. *)
Theorem apikey_create_posts_request c client key_name s o :
  ApiKeyCreateRequest [("key_name", key_name)] = Ok o →
  (∃ rq, sent (APIKey.create c client key_name s).2 = sent s ++ [rq] ∧
         req_method rq = "POST" ∧ req_url rq = base_url client +:+ "api_keys" ∧
         req_params rq = None ∧ req_json rq = Some (model_dump o)) ∧
  (∀ j, answered s (APIKey.create c client key_name s).2 j →
        (APIKey.create c client key_name s).1
        = Ok (mkNeonResource c client j ApiKeyCreateResponse None)).
Proof.
  intros Hval. rewrite (APIKey_create_run _ _ _ _ o Hval).
  rewrite bind_request_ret by done. simpl. split; [by eexists|].
  intros j Hans. by erewrite outcome_answered; [|done|apply last_snoc].
Qed.

(** X13.  [get_current_user_info], and with it the facade's [me], makes one
    GET of [users/me] without parameters or body, and when the answer is not
    an error returns one proxy over the decoded body, bound to the
    current-user schema; the proxy [me] returns is a [User]. *)
Theorem me_gets_current_user c client s :
  (∃ rq, sent (User.get_current_user_info c client s).2 = sent s ++ [rq] ∧
         req_method rq = "GET" ∧ req_url rq = base_url client +:+ "users/me" ∧
         req_params rq = None ∧ req_json rq = None) ∧
  (∀ j, answered s (User.get_current_user_info c client s).2 j →
        (User.get_current_user_info c client s).1
        = Ok (mkNeonResource c client j CurrentUserInfoResponse None)) ∧
  (∀ j, answered s (me client s).2 j →
        (me client s).1
        = Ok (mkNeonResource cUser client j CurrentUserInfoResponse None)).
Proof.
  unfold me, User.get_current_user_info.
  rewrite !bind_request_ret by done. simpl. split_and!; [by eexists| |];
    intros j Hans; by erewrite outcome_answered; [|done|apply last_snoc].
Qed.

(** X14.  [Branch.create] with arguments that validate returns, when the
    answer is not an error, one proxy over the decoded body, bound to the
    branch-response schema, whether or not a body was sent. *)
Theorem branch_create_wraps_response c client project_id endpoints branch
    kwargs s o b j :
  BranchCreateRequest
    (setdefault "branch" branch (setdefault "endpoints" endpoints kwargs)) = Ok o →
  Branch.endpoints_or_branch o = Ok b →
  answered s (Branch.create c client project_id endpoints branch kwargs s).2 j →
  (Branch.create c client project_id endpoints branch kwargs s).1
  = Ok (mkNeonResource c client j BranchResponse None).
Proof.
  intros Hval Hb. rewrite (Branch_create_run _ _ _ _ _ _ _ o b Hval Hb).
  rewrite bind_request_ret by by destruct b.
  simpl. intros Hans. by erewrite outcome_answered; [|done|apply last_snoc].
Qed.

Lemma list_result_fields c client dm (res : Result (list pyval)) ps p :
  match res with
  | Ok xs => Ok (map (fun x => NeonResource.__init__ c client x dm) xs)
  | Raise e => Raise e
  end = Ok ps →
  p ∈ ps →
  cls p = c ∧ _client p = client ∧ _data_model p = dm ∧ __cached_obj p = None.
Proof.
  destruct res as [xs|e]; [|done]. intros [= <-] Hin.
  apply list_elem_of_fmap in Hin as (x & -> & _). done.
Qed.

(** X15.  Every proxy a list operation returns is of the class the
    operation was called on, refers to the calling client, has no typed view
    yet, and is bound to the list-item schema of API keys for [APIKey.list]
    and to the list-item schema of projects for [Project.list] and, as the
    source has it, for [Branch.list] too. *)
Theorem list_proxies_are_lazy c client s p :
  (∀ ps, (APIKey.list c client s).1 = Ok ps → p ∈ ps →
     cls p = c ∧ _client p = client ∧
     _data_model p = ApiKeysListResponseItem ∧ __cached_obj p = None) ∧
  (∀ shared cursor limit ps,
     (Project.list c client shared cursor limit s).1 = Ok ps → p ∈ ps →
     cls p = c ∧ _client p = client ∧
     _data_model p = ProjectListItem ∧ __cached_obj p = None) ∧
  (∀ project_id cursor limit ps,
     (Branch.list c client project_id cursor limit s).1 = Ok ps → p ∈ ps →
     cls p = c ∧ _client p = client ∧
     _data_model p = ProjectListItem ∧ __cached_obj p = None).
Proof.
  split_and!.
  - intros ps. rewrite APIKey_list_run, bind_request_lift by done. simpl.
    destruct (outcome _) as [j|]; [|done]. apply list_result_fields.
  - intros shared cursor limit ps.
    rewrite Project_list_run, bind_request_lift by done. simpl.
    destruct (outcome _) as [j|]; [|done].
    destruct (getitem j "projects") as [a|]; [|done]. apply list_result_fields.
  - intros project_id cursor limit ps.
    rewrite Branch_list_run, bind_request_lift by done. simpl.
    destruct (outcome _) as [j|]; [|done].
    destruct (getitem j "branches") as [a|]; [|done]. apply list_result_fields.
Qed.

(** X16.  The list operations do not check the shape of the response.  A
    body that is an object without the expected entry makes [Project.list]
    raise [KeyError] for [projects] and [Branch.list] for [branches]; a body
    that is an array makes [Project.list] raise [TypeError]; a null body
    makes [APIKey.list] raise [TypeError]; and a body that is an object makes
    [APIKey.list] return one proxy per key, each over the key's text. *)
Theorem list_unexpected_response c client s :
  (∀ shared cursor limit kvs,
     answered s (Project.list c client shared cursor limit s).2 (PDict kvs) →
     assoc "projects" kvs = None →
     (Project.list c client shared cursor limit s).1 = Raise (KeyError "projects")) ∧
  (∀ project_id cursor limit kvs,
     answered s (Branch.list c client project_id cursor limit s).2 (PDict kvs) →
     assoc "branches" kvs = None →
     (Branch.list c client project_id cursor limit s).1
     = Raise (KeyError "branches")) ∧
  (∀ shared cursor limit xs,
     answered s (Project.list c client shared cursor limit s).2 (PList xs) →
     ∃ msg, (Project.list c client shared cursor limit s).1 = Raise (TypeError msg)) ∧
  (answered s (APIKey.list c client s).2 PNone →
     ∃ msg, (APIKey.list c client s).1 = Raise (TypeError msg)) ∧
  (∀ kvs,
     answered s (APIKey.list c client s).2 (PDict kvs) →
     ∃ ps, (APIKey.list c client s).1 = Ok ps ∧
           wraps_in_order ps (map (fun kv => PStr kv.1) kvs)).
Proof.
  split_and!.
  - intros shared cursor limit kvs.
    rewrite Project_list_run, bind_request_lift by done. simpl. intros Hans Hk.
    erewrite outcome_answered; [|done|apply last_snoc]. simpl. by rewrite Hk.
  - intros project_id cursor limit kvs.
    rewrite Branch_list_run, bind_request_lift by done. simpl. intros Hans Hk.
    erewrite outcome_answered; [|done|apply last_snoc]. simpl. by rewrite Hk.
  - intros shared cursor limit xs.
    rewrite Project_list_run, bind_request_lift by done. simpl. intros Hans.
    erewrite outcome_answered; [|done|apply last_snoc]. simpl. by eexists.
  - rewrite APIKey_list_run, bind_request_lift by done. simpl. intros Hans.
    erewrite outcome_answered; [|done|apply last_snoc]. simpl. by eexists.
  - intros kvs. rewrite APIKey_list_run, bind_request_lift by done. simpl.
    intros Hans. erewrite outcome_answered; [|done|apply last_snoc]. simpl.
    eexists. split; [done|]. apply map_wraps_in_order.
Qed.

Lemma revoke_request_run c client api_key s :
  APIKey.revoke_request c client (api_key, s)
  = match NeonResource.obj api_key with
    | (Raise e, api_key') => (Raise e, (api_key', s))
    | (Ok o, api_key') =>
        match getattr o "id" with
        | Raise e => (Raise e, (api_key', s))
        | Ok id =>
            let out := bind (NeonAPI.request client "DELETE"
                               ("api_keys/" +:+ format_value id) no_kwargs)
                            (fun r => ret (NeonResource.__init__ c client r
                                             ApiKeyRevokeResponse)) s in
            (out.1, (api_key', out.2))
        end
    end.
Proof.
  unfold APIKey.revoke_request. unfold bind at 1. unfold on_proxy at 1. simpl.
  destruct (NeonResource.obj api_key) as [[o|e] api_key']; [|done].
  unfold bind at 1. unfold lift at 1.
  destruct (getattr o "id") as [id|e]; [|done].
  unfold bind, on_world, ret. simpl.
  by destruct (NeonAPI.request _ _ _ _ s) as [[r|e] s'].
Qed.

(** X17.  [revoke_request] reads the identifier off the typed view of the
    key it is given, which it builds if need be, and makes one DELETE of
    [api_keys/] followed by that identifier as [str] prints it, without
    parameters or body; when the answer is not an error it returns one new
    proxy over the decoded body, bound to the revoke-response schema. *)
Theorem revoke_request_deletes_by_id c client api_key s o api_key' id :
  NeonResource.obj api_key = (Ok o, api_key') →
  getattr o "id" = Ok id →
  (∃ rq, sent (APIKey.revoke_request c client (api_key, s)).2.2 = sent s ++ [rq] ∧
         req_method rq = "DELETE" ∧
         req_url rq = base_url client +:+ "api_keys/" +:+ format_value id ∧
         req_params rq = None ∧ req_json rq = None) ∧
  (APIKey.revoke_request c client (api_key, s)).2.1 = api_key' ∧
  (∀ j, answered s (APIKey.revoke_request c client (api_key, s)).2.2 j →
        (APIKey.revoke_request c client (api_key, s)).1
        = Ok (mkNeonResource c client j ApiKeyRevokeResponse None)).
Proof.
  intros Hobj Hid. rewrite revoke_request_run, Hobj, Hid.
  rewrite bind_request_ret by done. simpl. split_and!; [by eexists | done |].
  intros j Hans. by erewrite outcome_answered; [|done|apply last_snoc].
Qed.

(** X18.  [revoke] acts through the client and the class of the key it is
    called on, and fails before any network call when the key's typed view
    cannot be built or has no [id]: the error is raised with the request log
    and the store as they were. *)
Theorem revoke_without_id_sends_nothing self s e :
  APIKey.revoke (self, s)
  = APIKey.revoke_request (cls self) (_client self) (self, s) ∧
  (∀ self', NeonResource.obj self = (Raise e, self') →
            APIKey.revoke (self, s) = (Raise e, (self', s))) ∧
  (∀ o self', NeonResource.obj self = (Ok o, self') →
              getattr o "id" = Raise e →
              APIKey.revoke (self, s) = (Raise e, (self', s))).
Proof.
  unfold APIKey.revoke. simpl. rewrite revoke_request_run. split_and!.
  - done.
  - by intros self' ->.
  - intros o self' -> Hid. by rewrite Hid.
Qed.
End MoreClassFacts.

(** ** Further properties: the proxy and the environment *)

Section MoreProxyFacts.
Context `{External}.
Implicit Types (self : NeonResource) (o : Instance) (name key : string).

(** X19.  For a name the proxy does not define itself and whose attribute
    on the typed view tests true, [proxy[name]] and [proxy.name] return the
    same value and leave the proxy in the same state. *)
Theorem item_and_attribute_agree self name o self' v :
  NeonResource.obj self = (Ok o, self') →
  getattr o name = Ok v →
  truthy v = true →
  own_defines self name = false →
  NeonResource.__getitem__ name self = (Ok v, self') ∧
  NeonResource.__getattribute__ name self = (Ok v, self').
Proof.
  intros Hobj Hv Ht Hown. split.
  - rewrite (getitem_run self name o self' Hobj).
    unfold getattr_default. by rewrite Hv, Ht.
  - rewrite getattribute_not_own by done. by rewrite Hobj, Hv.
Qed.

Lemma obj_at_most_materialized self :
  at_most_materialized self (NeonResource.obj self).2.
Proof.
  destruct self as [c cl data dm [o|]].
  - left. by rewrite (obj_cached _ o).
  - rewrite obj_fresh by done. simpl.
    destruct (model_construct dm data) as [o|e] eqn:Hmc; [right|left]; eauto.
Qed.

(** X20.  Reading through a proxy never changes its class, client, raw
    data or data model: after any attribute or item lookup the proxy is
    what it was, or what it was with the typed view of its data stored. *)
Theorem lookups_at_most_materialize self name :
  at_most_materialized self (NeonResource.__getattribute__ name self).2 ∧
  at_most_materialized self (NeonResource.__getitem__ name self).2.
Proof.
  pose proof (obj_at_most_materialized self) as Hobj. split.
  - destruct (own_defines self name) eqn:Hown.
    + rewrite getattribute_own by done.
      destruct (decide (name = "obj")) as [->|Hne].
      * unfold NeonResource.object_getattribute. simpl. unfold bind.
        by destruct (NeonResource.obj self) as [[o|e] self'].
      * destruct (object_getattribute_own self name Hown Hne) as [v ->]. by left.
    + rewrite getattribute_not_own by done.
      by destruct (NeonResource.obj self) as [[o|e] self'].
  - destruct (NeonResource.obj self) as [[o|e] self'] eqn:Hobj'.
    + by rewrite (getitem_run self name o self' Hobj').
    + unfold NeonResource.__getitem__, bind. by rewrite Hobj'.
Qed.

(** X21.  A proxy over data that is not a mapping (an element of a list
    response that is a string or a number, say) can be constructed but not
    read: building the typed view raises [TypeError] and stores nothing, so
    every item lookup and every lookup of an attribute the proxy does not
    define itself raises [TypeError], each time, with the proxy unchanged. *)
Theorem non_mapping_data_is_unreadable self name :
  __cached_obj self = None →
  (∀ kvs, _data self ≠ PDict kvs) →
  ∃ msg,
    NeonResource.obj self = (Raise (TypeError msg), self) ∧
    NeonResource.__getitem__ name self = (Raise (TypeError msg), self) ∧
    (own_defines self name = false →
     NeonResource.__getattribute__ name self = (Raise (TypeError msg), self)).
Proof.
  intros Hnone Hdata. exists "argument after ** must be a mapping"%string.
  assert (Hobj : NeonResource.obj self
                 = (Raise (TypeError "argument after ** must be a mapping"), self)).
  { rewrite obj_fresh by done. unfold model_construct.
    destruct (_data self) eqn:Hd; try done. by destruct (Hdata kvs). }
  split_and!; [done | |].
  - unfold NeonResource.__getitem__, bind. by rewrite Hobj.
  - intros Hown. rewrite getattribute_not_own by done. by rewrite Hobj.
Qed.

End MoreProxyFacts.

(** ** The further properties on concrete calls *)

Section MoreRuns.
Import Demo.

Lemma url_join_segments_witness :
  ["projects"] ≠ ([] : list string) ∧ ["p1"; "branches"] ≠ ([] : list string) ∧
  NeonAPI.url_join (["projects"] ++ ["p1"; "branches"])
  = "projects" +:+ "/" +:+ "p1/branches".
Proof.
  split_and!; [discriminate | discriminate |].
  apply (proj1 (proj2 (proj2 url_join_segments)) ["projects"] ["p1"; "branches"]);
    discriminate.
Defined.

Lemma compact_mapping_lookup_witness :
  NoDup [("cursor", PNone); ("limit", PInt 0)].*1 ∧
  assoc "cursor" (compact_mapping [("cursor", PNone); ("limit", PInt 0)]) = None ∧
  assoc "limit" (compact_mapping [("cursor", PNone); ("limit", PInt 0)])
  = Some (PInt 0).
Proof.
  assert (Hnd : NoDup [("cursor", PNone); ("limit", PInt 0)].*1).
  { apply (bool_decide_unpack _). vm_compute. exact I. }
  split_and!; [exact Hnd | |].
  - exact (compact_mapping_lookup [("cursor", PNone); ("limit", PInt 0)] "cursor" Hnd).
  - exact (compact_mapping_lookup [("cursor", PNone); ("limit", PInt 0)] "limit" Hnd).
Defined.

Lemma request_transport_error_unwrapped_witness :
  last (sent (NeonAPI.request (H:=Canned.down) client "GET" "api_keys"
                              no_kwargs start).2)
    = Some (get_request "api_keys") ∧
  session_request (External:=Canned.down) (sent start) (get_request "api_keys")
    = Raise (ConnectionError "down") ∧
  (NeonAPI.request (H:=Canned.down) client "GET" "api_keys" no_kwargs start).1
    = Raise (ConnectionError "down").
Proof.
  split_and!; [reflexivity | reflexivity |].
  apply (request_transport_error_unwrapped (H:=Canned.down) client "GET"
           "api_keys" no_kwargs start (get_request "api_keys")
           (ConnectionError "down")); reflexivity.
Defined.

Lemma request_default_headers_frame_witness :
  kw_headers no_kwargs = None ∧
  is_Some (heap with_headers !! 1%positive) ∧
  heap (NeonAPI.request (H:=world) client "GET" "api_keys" no_kwargs
                        with_headers).2 !! 1%positive
  = Some caller_headers.
Proof.
  assert (Hsome : is_Some (heap with_headers !! 1%positive)) by by eexists.
  split_and!; [reflexivity | exact Hsome |].
  etrans; [|reflexivity].
  exact (proj1 (request_default_headers_frame (H:=world) client "GET" "api_keys"
                  no_kwargs with_headers eq_refl) 1%positive Hsome).
Defined.

Lemma request_headers_reuse_witness :
  kw_headers one_header = Some 1%positive ∧
  heap with_headers !! 1%positive = Some caller_headers ∧
  ∃ rq1 rq2,
    sent (NeonAPI.request (H:=world) client "GET" "projects" one_header
            (NeonAPI.request (H:=world) client "GET" "api_keys" one_header
                             with_headers).2).2 = [rq1; rq2] ∧
    req_headers rq2 = req_headers rq1.
Proof.
  split_and!; [reflexivity | reflexivity |].
  destruct (request_headers_reuse (H:=world) client "GET" "api_keys" one_header
              "GET" "projects" one_header with_headers 1%positive caller_headers
              eq_refl eq_refl eq_refl) as (rq1 & rq2 & Hlog & Hsame & _).
  exists rq1, rq2. split; [exact Hlog | exact Hsame].
Defined.

Lemma branch_list_and_create_same_url_witness :
  BranchCreateRequest (External:=world)
    (setdefault "branch" (PDict []) (setdefault "endpoints" PNone []))
    = Ok Canned.branch_request ∧
  Branch.endpoints_or_branch (H:=world) Canned.branch_request = Ok true ∧
  ∃ rq rq',
    sent (Branch.list (H:=world) cBranch client "red-sea" PNone PNone start).2
      = [rq] ∧
    sent (Branch.create (H:=world) cBranch client "red-sea" PNone (PDict []) []
                        start).2 = [rq'] ∧
    req_url rq = req_url rq'.
Proof.
  split_and!; [reflexivity | reflexivity |].
  exact (branch_list_and_create_same_url (H:=world) cBranch client "red-sea"
           PNone PNone PNone (PDict []) [] start start Canned.branch_request true
           eq_refl eq_refl).
Defined.

Lemma refused_keys :
  refused (H:=Canned.refusing) start
    (APIKey.list (H:=Canned.refusing) cAPIKey client start).2
    (mkResponse 404 not_found_body).
Proof.
  exists (get_request "api_keys").
  split_and!; try reflexivity; simpl; lia.
Qed.

Lemma resource_methods_surface_http_error_witness :
  refused (H:=Canned.refusing) start
    (APIKey.list (H:=Canned.refusing) cAPIKey client start).2
    (mkResponse 404 not_found_body) ∧
  (APIKey.list (H:=Canned.refusing) cAPIKey client start).1
  = Raise (NeonClientException not_found_body).
Proof.
  split; [exact refused_keys|].
  exact (proj1 (resource_methods_surface_http_error (H:=Canned.refusing)
                  (H0:=Canned.more) cAPIKey client start
                  (mkResponse 404 not_found_body)) refused_keys).
Defined.

Lemma create_validation_precedes_request_witness :
  ApiKeyCreateRequest (MoreExternal:=Canned.more) [("key_name", PInt 3)]
    = Raise (ValidationError "ApiKeyCreateRequest") ∧
  APIKey.create (H:=world) (H0:=Canned.more) cAPIKey client (PInt 3) start
    = (Raise (ValidationError "ApiKeyCreateRequest"), start).
Proof.
  split; [reflexivity|].
  exact (proj1 (create_validation_precedes_request (H:=world) (H0:=Canned.more)
                  cAPIKey client start (ValidationError "ApiKeyCreateRequest"))
               (PInt 3) eq_refl).
Defined.

Lemma apikey_create_posts_request_witness :
  ApiKeyCreateRequest (MoreExternal:=Canned.more) [("key_name", PStr "ci")]
    = Ok (mkInstance "ApiKeyCreateRequest" [("key_name", PStr "ci")]) ∧
  ∃ rq,
    sent (APIKey.create (H:=world) (H0:=Canned.more) cAPIKey client (PStr "ci")
                        start).2 = [rq] ∧
    req_method rq = "POST" ∧
    req_json rq = Some (PDict [("key_name", PStr "ci")]).
Proof.
  split; [reflexivity|].
  destruct (proj1 (apikey_create_posts_request (H:=world) (H0:=Canned.more)
                     cAPIKey client (PStr "ci") start
                     (mkInstance "ApiKeyCreateRequest" [("key_name", PStr "ci")])
                     eq_refl))
    as (rq & Hlog & Hm & _ & _ & Hjson).
  exists rq. split_and!; [exact Hlog | exact Hm | exact Hjson].
Defined.

Lemma answered_me :
  answered (H:=Canned.answering Canned.me_body) start
    (me (H:=Canned.answering Canned.me_body) (H0:=Canned.more) client start).2
    Canned.me_body.
Proof.
  exists (get_request "users/me"), Canned.ok.
  split_and!; [reflexivity | reflexivity | simpl; lia | reflexivity].
Qed.

Lemma me_gets_current_user_witness :
  answered (H:=Canned.answering Canned.me_body) start
    (me (H:=Canned.answering Canned.me_body) (H0:=Canned.more) client start).2
    Canned.me_body ∧
  (me (H:=Canned.answering Canned.me_body) (H0:=Canned.more) client start).1
  = Ok (mkNeonResource cUser client Canned.me_body
          (CurrentUserInfoResponse (MoreExternal:=Canned.more)) None).
Proof.
  split; [exact answered_me|].
  exact (proj2 (proj2 (me_gets_current_user (H:=Canned.answering Canned.me_body)
                         (H0:=Canned.more) cUser client start))
               Canned.me_body answered_me).
Defined.

Lemma answered_created :
  answered (H:=world) start
    (Branch.create (H:=world) cBranch client "red-sea" PNone (PDict []) [] start).2
    (PDict [("branch", br2)]).
Proof.
  exists (issued client "POST" "projects/red-sea/branches"
            (mkKwargs None None (Some (model_dump (External:=world)
                                         Canned.branch_request))) start),
         (mkResponse 201 "created").
  split_and!; [reflexivity | reflexivity | simpl; lia | reflexivity].
Qed.

Lemma branch_create_wraps_response_witness :
  BranchCreateRequest (External:=world)
    (setdefault "branch" (PDict []) (setdefault "endpoints" PNone []))
    = Ok Canned.branch_request ∧
  (Branch.create (H:=world) cBranch client "red-sea" PNone (PDict []) [] start).1
  = Ok (mkNeonResource cBranch client (PDict [("branch", br2)])
          (BranchResponse (External:=world)) None).
Proof.
  split; [reflexivity|].
  exact (branch_create_wraps_response (H:=world) cBranch client "red-sea" PNone
           (PDict []) [] start Canned.branch_request true (PDict [("branch", br2)])
           eq_refl eq_refl answered_created).
Defined.

Lemma list_proxies_are_lazy_witness :
  (APIKey.list (H:=world) cAPIKey client start).1
    = Ok [key_proxy; NeonResource.__init__ cAPIKey client key2 KeyItem] ∧
  key_proxy ∈ [key_proxy; NeonResource.__init__ cAPIKey client key2 KeyItem] ∧
  _data_model key_proxy = ApiKeysListResponseItem (External:=world) ∧
  __cached_obj key_proxy = None.
Proof.
  assert (Hin : key_proxy
                ∈ [key_proxy; NeonResource.__init__ cAPIKey client key2 KeyItem])
    by apply list_elem_of_here.
  split_and!; [reflexivity | exact Hin | |];
    destruct (proj1 (list_proxies_are_lazy (H:=world) cAPIKey client start key_proxy)
                _ eq_refl Hin) as (_ & _ & Hdm & Hc); [exact Hdm | exact Hc].
Defined.

Lemma answered_empty_object :
  answered (H:=Canned.answering (PDict [])) start
    (Project.list (H:=Canned.answering (PDict [])) cProject client false PNone
                  PNone start).2 (PDict []).
Proof.
  exists (issued client "GET" "projects"
            (mkKwargs None (Some [("cursor", PNone); ("limit", PNone)]) None) start),
         Canned.ok.
  split_and!; [reflexivity | reflexivity | simpl; lia | reflexivity].
Qed.

Lemma list_unexpected_response_witness :
  answered (H:=Canned.answering (PDict [])) start
    (Project.list (H:=Canned.answering (PDict [])) cProject client false PNone
                  PNone start).2 (PDict []) ∧
  (Project.list (H:=Canned.answering (PDict [])) cProject client false PNone
                PNone start).1 = Raise (KeyError "projects").
Proof.
  split; [exact answered_empty_object|].
  exact (proj1 (list_unexpected_response (H:=Canned.answering (PDict []))
                  cProject client start)
               false PNone PNone [] answered_empty_object eq_refl).
Defined.

Lemma revoke_request_deletes_by_id_witness :
  NeonResource.obj key_proxy = (Ok Canned.key_view, (NeonResource.obj key_proxy).2) ∧
  getattr (H:=world) Canned.key_view "id" = Ok (PInt 1) ∧
  ∃ rq,
    sent (APIKey.revoke_request (H:=world) (H0:=Canned.more) cAPIKey client
            (key_proxy, start)).2.2 = [rq] ∧
    req_method rq = "DELETE" ∧
    req_url rq = NEON_API_BASE_URL +:+ "api_keys/1".
Proof.
  split_and!; [reflexivity | reflexivity |].
  destruct (proj1 (revoke_request_deletes_by_id (H:=world) (H0:=Canned.more)
                     cAPIKey client key_proxy start Canned.key_view
                     (NeonResource.obj key_proxy).2 (PInt 1) eq_refl eq_refl))
    as (rq & Hlog & Hm & Hurl & _).
  exists rq. split_and!; [exact Hlog | exact Hm | exact Hurl].
Defined.

Lemma revoke_without_id_sends_nothing_witness :
  NeonResource.obj Canned.nameless_proxy
    = (Ok (mkInstance "ApiKeysListResponseItem"
             [("name", PStr "ci"); ("last_used_at", PNone);
              ("last_used_from_addr", PNone)]),
       (NeonResource.obj Canned.nameless_proxy).2) ∧
  APIKey.revoke (H:=world) (H0:=Canned.more) (Canned.nameless_proxy, start)
    = (Raise (AttributeError "id"),
       ((NeonResource.obj Canned.nameless_proxy).2, start)).
Proof.
  split; [reflexivity|].
  exact (proj2 (proj2 (revoke_without_id_sends_nothing (H:=world) (H0:=Canned.more)
                         Canned.nameless_proxy start (AttributeError "id")))
               _ _ eq_refl eq_refl).
Defined.

Lemma item_and_attribute_agree_witness :
  own_defines (H:=world) key_proxy "name" = false ∧
  NeonResource.__getitem__ (H:=world) "name" key_proxy
    = (Ok (PStr "ci"), (NeonResource.obj key_proxy).2) ∧
  NeonResource.__getattribute__ (H:=world) "name" key_proxy
    = (Ok (PStr "ci"), (NeonResource.obj key_proxy).2).
Proof.
  split; [reflexivity|].
  exact (item_and_attribute_agree (H:=world) key_proxy "name" Canned.key_view
           (NeonResource.obj key_proxy).2 (PStr "ci")
           eq_refl eq_refl eq_refl eq_refl).
Defined.

Lemma non_mapping_data_is_unreadable_witness :
  __cached_obj Canned.string_proxy = None ∧
  ∃ msg, NeonResource.__getitem__ (H:=world) "id" Canned.string_proxy
         = (Raise (TypeError msg), Canned.string_proxy).
Proof.
  split; [reflexivity|].
  destruct (non_mapping_data_is_unreadable (H:=world) Canned.string_proxy "id"
              eq_refl) as (msg & _ & Hitem & _); [discriminate|].
  exists msg. exact Hitem.
Defined.

End MoreRuns.

Section FacadeFacts.
Context `{External}.

(** X23.  The facade's [api_keys] is [APIKey.list] on the class [APIKey]:
    one GET of [api_keys], and when the answer is not an error and its body
    is an array, exactly the proxies over the elements of the array, in
    order, of class [APIKey], bound to the list-item schema, none with a
    typed view yet. *)
Theorem api_keys_lists_keys (self : NeonAPI) (s : State) :
  (∃ rq, sent (api_keys self s).2 = sent s ++ [rq] ∧
         req_method rq = "GET" ∧ req_url rq = base_url self +:+ "api_keys") ∧
  (∀ xs, answered s (api_keys self s).2 (PList xs) →
         (api_keys self s).1
         = Ok (map (fun x => mkNeonResource cAPIKey self x
                               ApiKeysListResponseItem None) xs)).
Proof.
  unfold api_keys. rewrite APIKey_list_run, bind_request_lift by done. simpl.
  split; [by eexists|].
  intros xs Hans. by erewrite outcome_answered; [|done|apply last_snoc].
Qed.
End FacadeFacts.

Section FacadeRuns.
Import Demo.

Lemma api_keys_lists_keys_witness :
  answered (H:=world) start (api_keys (H:=world) client start).2
           (PList [key1; key2]) ∧
  (api_keys (H:=world) client start).1
  = Ok [key_proxy; NeonResource.__init__ cAPIKey client key2 KeyItem].
Proof.
  split; [exact answered_keys|].
  exact (proj2 (api_keys_lists_keys (H:=world) client start)
               [key1; key2] answered_keys).
Defined.
End FacadeRuns.
